(** * DataTableComponent: lazy pagination and cross-page selection

    A shallow embedding of [src/Component/DataTableComponent.tsx]: the
    component state held in React hooks, the two asynchronous handlers
    that talk to the artworks API ([fetchData], [handleRowSelection]),
    the selection callback and the inscriptions column renderer.

    Conventions.
    - Integral JavaScript numbers are [Z].  The one place where the source
      divides without rounding ([first / rows + 1]) is kept in [Q]: on
      integers below 2^53 a double quotient is exact when it is integral
      and stays non-integral otherwise, which is all the development uses.
    - A JavaScript string is a [string]; one character stands for one
      UTF-16 code unit, so [String.length] is [.length].
    - [undefined] / [null] are [None].
    - An [async] function is a function from the component state and the
      network log to a completion (resolved or rejected), the new state
      and the new log. *)

From Stdlib Require Import ZArith QArith Qround List String Bool Lia.
From Stdlib Require Import Ascii Decimal DecimalString DecimalPos.
Import ListNotations.

Local Open Scope Z_scope.
Local Open Scope list_scope.

(** ** JavaScript primitives used by the component *)

Module Js.

(** [a / b] on two integral numbers, for [b <> 0].  (Dividing by 0 gives
    [Infinity] or [NaN], which [Q] does not have; every statement about a
    quotient below assumes a positive divisor.) *)
Definition div (a b : Z) : Q := (inject_Z a / inject_Z b)%Q.

(** [Math.ceil]. *)
Definition Math_ceil (x : Q) : Z := Qceiling x.

(** The exclusive end index of [x.slice(0, e)] for an [x] of length
    [len]: a negative [e] counts from the end, and the result is clamped
    to [0 .. len]. *)
Definition slice_end (len : nat) (e : Z) : nat :=
  if e <? 0 then Z.to_nat (Z.max (Z.of_nat len + e) 0)
  else Nat.min (Z.to_nat e) len.

(** [String.prototype.slice(0, e)]. *)
Definition str_slice0 (text : string) (e : Z) : string :=
  substring 0 (slice_end (String.length text) e) text.

(** [Array.prototype.slice(0, e)]. *)
Definition arr_slice0 {A : Type} (xs : list A) (e : Z) : list A :=
  firstn (slice_end (List.length xs) e) xs.

(** [s || d] on a possibly absent string: [null], [undefined] and the
    empty string are falsy. *)
Definition or_else (s : option string) (d : string) : string :=
  match s with
  | Some EmptyString => d
  | Some t => t
  | None => d
  end.

End Js.

(** ** Records and the data source *)

(** [interface Artwork].  The API delivers [null] for a missing origin or
    inscription, which is why the renderers guard them with [||]. *)
Record Artwork : Type := mkArtwork {
  id : Z;
  title : string;
  place_of_origin : option string;
  artist_display : string;
  inscriptions : option string;
  date_start : Z;
  date_end : Z;
  image_id : string
}.

(** A GET on [/api/v1/artworks?page=${page}&limit=${limit}]. *)
Record Request : Type := mkRequest {
  req_page : Q;
  req_limit : Z
}.

(** What one request can come back with.
    - [NetworkError]: [fetch] rejects.
    - [NotJson]: [fetch] resolves and [response.json()] rejects.
    - [ErrorBody]: the body parses to an object with neither [data] nor
      [pagination], which is what the API sends with a non-success status.
    - [Listing d t]: [{ data: d, pagination: { total: t } }]. *)
Inductive Response : Type :=
| NetworkError
| NotJson
| ErrorBody
| Listing (data : list Artwork) (total : Z).

(** The parsed body, once both awaits went through. *)
Inductive Json : Type :=
| JError
| JListing (data : list Artwork) (total : Z).

(** [data.data]; [undefined] on an error body. *)
Definition json_data (j : Json) : option (list Artwork) :=
  match j with
  | JError => None
  | JListing d _ => Some d
  end.

(** The network log: every request issued so far, oldest first. *)
Definition World : Type := list Request.

(** The data source answers a request knowing all the requests before it,
    so the total and the pages may change between calls. *)
Definition DataSource : Type := World -> Request -> Response.

(** Whether a response makes the awaiting handler throw before it has an
    array of records in hand. *)
Definition failed (r : Response) : bool :=
  match r with
  | Listing _ _ => false
  | _ => true
  end.

(** The records of a response ([[]] when there are none to speak of). *)
Definition records (r : Response) : list Artwork :=
  match r with
  | Listing d _ => d
  | _ => []
  end.

(** ** Component state *)

(** The [useState] cells of the component.  [artworks] can end up
    [undefined] at run time although it is declared [Artwork[]]. *)
Record State : Type := mkState {
  artworks : option (list Artwork);
  totalRecords : Z;
  loading : bool;
  first : Z;
  rows : Z;
  selectedArtworks : list Artwork;
  rowCount : Z
}.

(** The state at mount. *)
Definition initialState : State :=
  {| artworks := Some [];
     totalRecords := 0;
     loading := true;
     first := 0;
     rows := 12;
     selectedArtworks := [];
     rowCount := 0 |}.

(** ** Asynchronous computations *)

Inductive Completion (A : Type) : Type :=
| Resolved (a : A)
| Rejected.
Arguments Resolved {A} a.
Arguments Rejected {A}.

Definition Async (A : Type) : Type :=
  State -> World -> Completion A * State * World.

Definition ret {A : Type} (a : A) : Async A :=
  fun st w => (Resolved a, st, w).

Definition throw {A : Type} : Async A :=
  fun st w => (Rejected, st, w).

Definition bind {A B : Type} (m : Async A) (k : A -> Async B) : Async B :=
  fun st w =>
    match m st w with
    | (Resolved a, st', w') => k a st' w'
    | (Rejected, st', w') => (Rejected, st', w')
    end.

Declare Scope async_scope.
Delimit Scope async_scope with async.
Notation "x <- m ;; k" := (bind m (fun x => k))
  (at level 61, m at next level, right associativity) : async_scope.
Notation "m ;; k" := (bind m (fun _ => k))
  (at level 61, right associativity) : async_scope.
Local Open Scope async_scope.

(** Projections of a finished run. *)
Definition completion {A : Type} (r : Completion A * State * World) : Completion A :=
  fst (fst r).
Definition state_after {A : Type} (r : Completion A * State * World) : State :=
  snd (fst r).
Definition world_after {A : Type} (r : Completion A * State * World) : World :=
  snd r.

(** The state setters. *)
Definition setArtworks (v : option (list Artwork)) : Async unit :=
  fun st w =>
    (Resolved tt,
     mkState v (totalRecords st) (loading st) (first st) (rows st)
             (selectedArtworks st) (rowCount st), w).

Definition setTotalRecords (v : Z) : Async unit :=
  fun st w =>
    (Resolved tt,
     mkState (artworks st) v (loading st) (first st) (rows st)
             (selectedArtworks st) (rowCount st), w).

Definition setLoading (v : bool) : Async unit :=
  fun st w =>
    (Resolved tt,
     mkState (artworks st) (totalRecords st) v (first st) (rows st)
             (selectedArtworks st) (rowCount st), w).

Definition setFirst (v : Z) : Async unit :=
  fun st w =>
    (Resolved tt,
     mkState (artworks st) (totalRecords st) (loading st) v (rows st)
             (selectedArtworks st) (rowCount st), w).

Definition setRows (v : Z) : Async unit :=
  fun st w =>
    (Resolved tt,
     mkState (artworks st) (totalRecords st) (loading st) (first st) v
             (selectedArtworks st) (rowCount st), w).

Definition setSelectedArtworks (v : list Artwork) : Async unit :=
  fun st w =>
    (Resolved tt,
     mkState (artworks st) (totalRecords st) (loading st) (first st) (rows st)
             v (rowCount st), w).

Definition setRowCount (v : Z) : Async unit :=
  fun st w =>
    (Resolved tt,
     mkState (artworks st) (totalRecords st) (loading st) (first st) (rows st)
             (selectedArtworks st) v, w).

(** ** The handlers *)

Section Component.

Variable srv : DataSource.

(** [await fetch(url)] followed by [await response.json()]: the request
    is logged, and either await may reject. *)
Definition fetch_json (req : Request) : Async Json :=
  fun st w =>
    match srv w req with
    | NetworkError => (Rejected, st, w ++ [req])
    | NotJson => (Rejected, st, w ++ [req])
    | ErrorBody => (Resolved JError, st, w ++ [req])
    | Listing d t => (Resolved (JListing d t), st, w ++ [req])
    end.

(** [data.pagination.total]: reading [total] off a missing [pagination]
    is a TypeError. *)
Definition pagination_total (j : Json) : Async Z :=
  match j with
  | JError => throw
  | JListing _ t => ret t
  end.

(** [fetchData], lines 31-38. *)
Definition fetchData (page : Q) (pageSize : Z) : Async unit :=
  setLoading true ;;
  data <- fetch_json (mkRequest page pageSize) ;;
  setArtworks (json_data data) ;;
  total <- pagination_total data ;;
  setTotalRecords total ;;
  setLoading false.

(** The effect of lines 40-42, run when [first] or [rows] changed. *)
Definition useEffect : Async unit :=
  fun st w => fetchData (Js.div (first st) (rows st) + 1)%Q (rows st) st w.

(** The paginator's event and [onPageChange], lines 48-52. *)
Record PageEvent : Type := mkPageEvent {
  ev_first : Z;
  ev_rows : Z;
  ev_page : Z
}.

Definition onPageChange (e : PageEvent) : Async unit :=
  setFirst (ev_first e) ;;
  setRows (ev_rows e) ;;
  fetchData (inject_Z (ev_page e + 1)) (ev_rows e).

(** [onRowSelect], lines 44-46: the table hands over the whole new
    selection as [e.value]. *)
Definition onRowSelect (value : list Artwork) : Async unit :=
  setSelectedArtworks value.

(** The [for] loop of [handleRowSelection], lines 101-114.  [rows] and
    [pages] are the values closed over, [page], [newSelection] and
    [rowsToFetch] the loop's variables; [fuel] bounds the iterations and
    the loop test is still evaluated at every turn. *)
Fixpoint for_pages (fuel : nat) (rows pages page : Z)
         (newSelection : list Artwork) (rowsToFetch : Z)
  : Async (list Artwork) :=
  match fuel with
  | O => ret newSelection
  | S fuel' =>
      if page <=? pages then
        data <- fetch_json (mkRequest (inject_Z page) rows) ;;
        match json_data data with
        | None => throw
        | Some fetchedData =>
            let newSelection' :=
              if page =? pages
              then newSelection ++ Js.arr_slice0 fetchedData rowsToFetch
              else newSelection ++ fetchedData in
            let rowsToFetch' :=
              if page =? pages then rowsToFetch else rowsToFetch - rows in
            if rowsToFetch' <=? 0 then ret newSelection'
            else for_pages fuel' rows pages (page + 1) newSelection' rowsToFetch'
        end
      else ret newSelection
  end.

(** [handleRowSelection], lines 96-118.  [page] runs from 1 to [pages],
    so [pages] turns are all the loop can take. *)
Definition handleRowSelection : Async unit :=
  fun st w =>
    let pages := Js.Math_ceil (Js.div (rowCount st) (rows st)) in
    (newSelection <- for_pages (Z.to_nat pages) (rows st) pages 1 [] (rowCount st) ;;
     setSelectedArtworks newSelection ;;
     setRowCount 0) st w.

(** [truncateText], lines 75-78. *)
Definition truncateText (text : string) (charLimit : Z) : string :=
  if Z.of_nat (String.length text) <=? charLimit then text
  else Js.str_slice0 text charLimit.

(** The text [inscriptionsBodyTemplate] puts in its span, lines 80-82. *)
Definition inscriptionsBodyTemplate (artwork : Artwork) : string :=
  truncateText (Js.or_else (inscriptions artwork) "N/A"%string) 24.

(** The text [statusBodyTemplate] puts in its span, lines 92-94. *)
Definition statusBodyTemplate (artwork : Artwork) : string :=
  Js.or_else (place_of_origin artwork) "Unknown"%string.

End Component.

(** ** Reading the network log *)

Section Log.

Variable srv : DataSource.

(** The answers the data source gives to [reqs], issued in this order
    after the log [w]. *)
Fixpoint responses (w : World) (reqs : list Request) : list Response :=
  match reqs with
  | [] => []
  | r :: rs => srv w r :: responses (w ++ [r]) rs
  end.

(** Every one of these requests came back with an array of records. *)
Definition all_listed (w : World) (reqs : list Request) : bool :=
  forallb (fun r => negb (failed r)) (responses w reqs).

(** The pages [from], [from + 1], ... ([count] of them), each asked with
    [limit = rows]. *)
Fixpoint page_requests (count : nat) (rows from : Z) : list Request :=
  match count with
  | O => []
  | S c => mkRequest (inject_Z from) rows :: page_requests c rows (from + 1)
  end.

End Log.

(** Sample data sources, used to run the handlers. *)

Definition artwork_of (i : Z) : Artwork :=
  mkArtwork i "" None "" None 0 0 "".

(** The identifiers [from], [from + 1], ... *)
Fixpoint ids_from (count : nat) (from : Z) : list Z :=
  match count with
  | O => []
  | S c => from :: ids_from c (from + 1)
  end.

(** A stable collection of [total] records numbered from 1, paged the way
    the API pages. *)
Definition museum (total : Z) : DataSource :=
  fun _ req =>
    let p := Qfloor (req_page req) in
    let l := req_limit req in
    let before := (p - 1) * l in
    Listing (map artwork_of
                 (ids_from (Z.to_nat (Z.min l (total - before))) (before + 1)))
            total.

(** The same collection behind a network that drops the request number
    [k] (counting from 0). *)
Definition museum_failing_at (total : Z) (k : nat) : DataSource :=
  fun w req =>
    if Nat.eqb (List.length w) k then NetworkError else museum total w req.

(** The same collection behind a gateway that answers the request number
    [k] with a non-success status and an error object. *)
Definition museum_refusing_at (total : Z) (k : nat) : DataSource :=
  fun w req =>
    if Nat.eqb (List.length w) k then ErrorBody else museum total w req.

(** ** Vocabulary of the statements *)

(** All the records of every answer but the last, then the first
    [remaining] records of the last answer. *)
Definition accumulated (resps : list Response) (remaining : Z) : list Artwork :=
  List.concat (map records (removelast resps)) ++
  Js.arr_slice0 (records (last resps ErrorBody)) remaining.

(** The number of pages a bulk selection sets out to fetch. *)
Definition bulk_pages (st : State) : Z :=
  Js.Math_ceil (Js.div (rowCount st) (rows st)).

(** The requests for the pages 1 .. [bulk_pages st]. *)
Definition bulk_requests (st : State) : list Request :=
  page_requests (Z.to_nat (bulk_pages st)) (rows st) 1.

(** The state with another selection. *)
Definition with_selection (sel : list Artwork) (st : State) : State :=
  mkState (artworks st) (totalRecords st) (loading st) (first st) (rows st)
          sel (rowCount st).

(** The state a bulk selection that gathered [sel] leaves behind. *)
Definition selected_and_reset (sel : list Artwork) (st : State) : State :=
  mkState (artworks st) (totalRecords st) (loading st) (first st) (rows st)
          sel 0.

(** A component showing page 1 with one record selected by hand and [n]
    typed into the row-count box. *)
Definition asking_for (n : Z) : State :=
  mkState (Some []) 50 false 0 12 [artwork_of 99] n.

(** A component showing the records from [offset] on, in pages of
    [pageSize], with record 7 on display and nothing in flight. *)
Definition showing (offset pageSize : Z) : State :=
  mkState (Some [artwork_of 7]) 50 false offset pageSize [] 0.

(** Membership in the selection goes by record identifier
    ([dataKey="id"]). *)
Definition selected (i : Z) (sel : list Artwork) : bool :=
  existsb (fun a => id a =? i) sel.

(** Modelled from the spec: the new selection the table widget computes
    when the checkbox of a row is clicked.  The widget is the third-party
    [DataTable], whose code is not part of the sources; the specification
    words it as "adds the id if absent, removes if present". *)
Definition toggle (a : Artwork) (sel : list Artwork) : list Artwork :=
  if selected (id a) sel
  then filter (fun b => negb (id b =? id a)) sel
  else sel ++ [a].

(** A click on the checkbox of row [a]: the widget computes the new
    selection and calls back [onSelectionChange={onRowSelect}] with it. *)
Definition rowToggle (a : Artwork) : Async unit :=
  fun st w => onRowSelect (toggle a (selectedArtworks st)) st w.

(** Two clicks in a row on the same checkbox. *)
Definition rowToggleTwice (a : Artwork) : Async unit :=
  fun st w =>
    rowToggle a (state_after (rowToggle a st w)) (world_after (rowToggle a st w)).

(** A record whose inscription has 40 characters, and one without. *)
Definition signed_artwork : Artwork :=
  mkArtwork 27992 "Water Lilies" (Some "France"%string) "Claude Monet (French, 1840-1926)"
            (Some "Signed and dated lower right: Monet 1906"%string) 1906 1906 "3c27b499".

Definition unsigned_artwork : Artwork :=
  mkArtwork 111628 "Nighthawks" None "Edward Hopper" None 1942 1942 "831a05de".

(** ** The rest of the component *)

(** What sets the page loader going: a click in the paginator
    ([onPageChange]) or a run of the effect. *)
Inductive Navigation : Type :=
| PageChanged (e : PageEvent)
| EffectRun.

Definition navigation_step (srv : DataSource) (a : Navigation) : Async unit :=
  match a with
  | PageChanged e => onPageChange srv e
  | EffectRun => useEffect srv
  end.

(** A session of page loads, each started once the one before has
    settled, resolved or rejected. *)
Fixpoint navigate (srv : DataSource) (steps : list Navigation)
         (st : State) (w : World) : State * World :=
  match steps with
  | [] => (st, w)
  | a :: rest =>
      navigate srv rest (state_after (navigation_step srv a st w))
               (world_after (navigation_step srv a st w))
  end.

(** How many of the requests [reqs], sent in this order after the log
    [w], go out when sending stops right after the first failed one. *)
Fixpoint issued (srv : DataSource) (w : World) (reqs : list Request) : nat :=
  match reqs with
  | [] => O
  | r :: rs => if failed (srv w r) then 1%nat else S (issued srv (w ++ [r]) rs)
  end.

(** [/[\(,]/]: an opening parenthesis or a comma. *)
Definition is_separator (c : Ascii.ascii) : bool :=
  Ascii.eqb c "("%char || Ascii.eqb c ","%char.

(** [s.split(/[\(,]/)[0]]: what comes before the first separator, the
    whole of [s] when it has none. *)
Fixpoint before_separator (s : string) : string :=
  match s with
  | EmptyString => EmptyString
  | String c s' =>
      if is_separator c then EmptyString else String c (before_separator s')
  end.

(** The white space and line terminators [trim] removes, among the code
    units below 256: TAB, LF, VT, FF, CR, SP and NBSP. *)
Definition is_space (c : Ascii.ascii) : bool :=
  Ascii.eqb c "009"%char || Ascii.eqb c "010"%char || Ascii.eqb c "011"%char ||
  Ascii.eqb c "012"%char || Ascii.eqb c "013"%char || Ascii.eqb c " "%char ||
  Ascii.eqb c "160"%char.

Fixpoint trim_start (s : string) : string :=
  match s with
  | EmptyString => EmptyString
  | String c s' => if is_space c then trim_start s' else s
  end.

Fixpoint trim_end (s : string) : string :=
  match s with
  | EmptyString => EmptyString
  | String c s' =>
      match trim_end s' with
      | EmptyString => if is_space c then EmptyString else String c EmptyString
      | t => String c t
      end
  end.

(** [String.prototype.trim]. *)
Definition trim (s : string) : string := trim_end (trim_start s).

(** The text [artistBodyTemplate] puts in its span, lines 70-73, for a
    descriptor that is a string as the interface declares it. *)
Definition artistBodyTemplate (artwork : Artwork) : string :=
  trim (before_separator (artist_display artwork)).

(** Every character of [s] passes [p]. *)
Fixpoint string_forall (p : Ascii.ascii -> bool) (s : string) : bool :=
  match s with
  | EmptyString => true
  | String c s' => p c && string_forall p s'
  end.

(** [s.replace(/^0+/, '')]: [s] without its leading zeros. *)
Fixpoint strip_leading_zeros (s : string) : string :=
  match s with
  | EmptyString => EmptyString
  | String c s' => if Ascii.eqb c "0"%char then strip_leading_zeros s' else s
  end.

(** [Number(s)] on a text made of decimal digits only and worth at most
    2^53, where the double is the integer written.  Any other text (a
    sign, a point, an exponent, a larger number) gives a number that
    [rowCount : Z] does not hold; it is outside the model: [None]. *)
Definition Number_of_digits (s : string) : option Z :=
  match NilEmpty.uint_of_string s with
  | Some d =>
      if Z.of_uint d <=? 9007199254740992 then Some (Z.of_uint d) else None
  | None => None
  end.

(** [handleInputChange], lines 126-130, with [e.target.value] for
    argument; [None] when the text is outside the model. *)
Definition handleInputChange (inputValue : string) : option (Async unit) :=
  let cleanedValue := strip_leading_zeros inputValue in
  if String.eqb cleanedValue EmptyString then Some (setRowCount 0)
  else option_map setRowCount (Number_of_digits cleanedValue).

(** The text shown in the row-count box, line 157:
    [rowCount === 0 ? '' : rowCount], the number being printed in decimal
    (integers up to 2^53 in absolute value). *)
Definition rowCountBox (st : State) : string :=
  if rowCount st =? 0 then EmptyString
  else NilEmpty.string_of_int (Z.to_int (rowCount st)).

(** A run of [n] zeros. *)
Fixpoint zeros (n : nat) : string :=
  match n with
  | O => EmptyString
  | S k => String "0"%char (zeros k)
  end.

(** Modelled from the spec: the page events of the table's paginator,
    a widget that is not part of the sources.  The offset is the index of
    the first record of the page shown, so that the event for the page of
    index [page] in pages of [rows] records carries
    [first = page * rows]. *)
Definition paginator_event (e : PageEvent) : Prop :=
  0 <= ev_page e /\ 0 < ev_rows e /\ ev_first e = ev_page e * ev_rows e.

(** The states the component goes through: the state at mount, and from
    there any run of the effect or of a handler, against any data source
    and network log.  (A text typed in the row-count box that is outside
    the model of [handleInputChange] would store a number [rowCount : Z]
    does not hold; it touches no other cell.) *)
Inductive reachable : State -> Prop :=
| reach_mount : reachable initialState
| reach_effect (srv : DataSource) (st : State) (w : World) :
    reachable st -> reachable (state_after (useEffect srv st w))
| reach_page (srv : DataSource) (e : PageEvent) (st : State) (w : World) :
    reachable st -> paginator_event e ->
    reachable (state_after (onPageChange srv e st w))
| reach_select (value : list Artwork) (st : State) (w : World) :
    reachable st -> reachable (state_after (onRowSelect value st w))
| reach_submit (srv : DataSource) (st : State) (w : World) :
    reachable st -> reachable (state_after (handleRowSelection srv st w))
| reach_input (text : string) (run : Async unit) (st : State) (w : World) :
    reachable st -> handleInputChange text = Some run ->
    reachable (state_after (run st w)).

(** * Properties *)

(** ** The bulk-selection loop *)

Section Loop.

Variable srv : DataSource.

Lemma responses_length (w : World) (reqs : list Request) :
  List.length (responses srv w reqs) = List.length reqs.
Proof.
  revert w; induction reqs as [|r rs IH]; intros w; simpl; auto.
Qed.

Lemma page_requests_length (count : nat) (rows from : Z) :
  List.length (page_requests count rows from) = count.
Proof.
  revert from; induction count as [|c IH]; intros from; simpl; auto.
Qed.

Lemma page_requests_nth (count : nat) (rows from : Z) (i : nat) (d : Request) :
  (i < count)%nat ->
  nth i (page_requests count rows from) d =
  mkRequest (inject_Z (from + Z.of_nat i)) rows.
Proof.
  revert from i; induction count as [|c IH]; intros from i Hi; [lia|].
  destruct i as [|i]; simpl.
  - now rewrite Z.add_0_r.
  - rewrite IH by lia. do 2 f_equal. lia.
Qed.

(** One turn of the loop whose fetch brings back an array. *)
Lemma for_pages_listing fuel rows pages page acc rtf st w d t :
  page <= pages ->
  srv w (mkRequest (inject_Z page) rows) = Listing d t ->
  for_pages srv (S fuel) rows pages page acc rtf st w =
  (let acc' := if page =? pages then acc ++ Js.arr_slice0 d rtf else acc ++ d in
   let rtf' := if page =? pages then rtf else rtf - rows in
   if rtf' <=? 0
   then (Resolved acc', st, w ++ [mkRequest (inject_Z page) rows])
   else for_pages srv fuel rows pages (page + 1) acc' rtf' st
                  (w ++ [mkRequest (inject_Z page) rows])).
Proof.
  intros Hle Hr. simpl.
  apply Z.leb_le in Hle. rewrite Hle.
  unfold bind, fetch_json. rewrite Hr. simpl.
  destruct (page =? pages); destruct (_ <=? 0); reflexivity.
Qed.

(** One turn of the loop whose fetch does not bring back an array. *)
Lemma for_pages_failed fuel rows pages page acc rtf st w :
  page <= pages ->
  failed (srv w (mkRequest (inject_Z page) rows)) = true ->
  for_pages srv (S fuel) rows pages page acc rtf st w =
  (Rejected, st, w ++ [mkRequest (inject_Z page) rows]).
Proof.
  intros Hle Hr. simpl.
  apply Z.leb_le in Hle. rewrite Hle.
  unfold bind, fetch_json.
  destruct (srv w _); simpl in *; try reflexivity; discriminate.
Qed.

(** Past the last page the loop is over. *)
Lemma for_pages_done fuel rows pages page acc rtf st w :
  pages < page ->
  for_pages srv fuel rows pages page acc rtf st w = (Resolved acc, st, w).
Proof.
  intros Hlt. destruct fuel; simpl; [reflexivity|].
  apply Z.leb_gt in Hlt. rewrite Hlt. reflexivity.
Qed.

(** The loop is total: [pages - page + 1] turns are all it can take, and
    more fuel changes nothing. *)
Lemma for_pages_fuel fuel rows pages page acc rtf st w :
  (Z.to_nat (pages - page + 1) <= fuel)%nat ->
  for_pages srv fuel rows pages page acc rtf st w =
  for_pages srv (Z.to_nat (pages - page + 1)) rows pages page acc rtf st w.
Proof.
  revert page acc rtf w.
  induction fuel as [|fuel IH]; intros page acc rtf w Hf.
  - replace (Z.to_nat (pages - page + 1)) with O by lia. reflexivity.
  - destruct (Z_lt_le_dec pages page) as [Hlt|Hle].
    + now rewrite !for_pages_done.
    + replace (Z.to_nat (pages - page + 1))
        with (S (Z.to_nat (pages - (page + 1) + 1))) by lia.
      destruct (srv w (mkRequest (inject_Z page) rows)) eqn:Hr;
        try (rewrite !for_pages_failed by (auto; rewrite Hr; reflexivity);
             reflexivity).
      rewrite !(for_pages_listing _ _ _ _ _ _ _ _ _ _ Hle Hr). cbv zeta.
      destruct (_ <=? 0); [reflexivity|].
      apply IH. lia.
Qed.

(** The loop never writes to the component state, and what it returns
    does not depend on it. *)
Lemma for_pages_state fuel rows pages page acc rtf st st0 w :
  for_pages srv fuel rows pages page acc rtf st w =
  (completion (for_pages srv fuel rows pages page acc rtf st0 w), st,
   world_after (for_pages srv fuel rows pages page acc rtf st0 w)).
Proof.
  revert page acc rtf w.
  induction fuel as [|fuel IH]; intros page acc rtf w; [reflexivity|].
  destruct (Z_lt_le_dec pages page) as [Hlt|Hle].
  - now rewrite !for_pages_done.
  - destruct (srv w (mkRequest (inject_Z page) rows)) eqn:Hr;
      try (rewrite !for_pages_failed by (auto; rewrite Hr; reflexivity);
           reflexivity).
    rewrite !(for_pages_listing _ _ _ _ _ _ _ _ _ _ Hle Hr). cbv zeta.
    destruct (_ <=? 0); [reflexivity|].
    apply IH.
Qed.

(** The log only grows, by requests that all brought back an array when
    the loop resolves and with a failed one when it rejects. *)
Lemma for_pages_log fuel rows pages page acc rtf st w :
  exists ext,
    world_after (for_pages srv fuel rows pages page acc rtf st w) = w ++ ext /\
    all_listed srv w ext =
    match completion (for_pages srv fuel rows pages page acc rtf st w) with
    | Resolved _ => true
    | Rejected => false
    end.
Proof.
  revert page acc rtf w.
  induction fuel as [|fuel IH]; intros page acc rtf w.
  - exists []. simpl. now rewrite app_nil_r.
  - destruct (Z_lt_le_dec pages page) as [Hlt|Hle].
    + rewrite for_pages_done by assumption.
      exists []. simpl. now rewrite app_nil_r.
    + set (req := mkRequest (inject_Z page) rows).
      destruct (srv w req) eqn:Hr;
        try (rewrite for_pages_failed by (auto; fold req; rewrite Hr; reflexivity);
             exists [req]; split; [reflexivity|];
             unfold all_listed; simpl; rewrite Hr; reflexivity).
      rewrite (for_pages_listing _ _ _ _ _ _ _ _ _ _ Hle Hr). cbv zeta.
      fold req.
      destruct (_ <=? 0).
      * exists [req]. split; [reflexivity|].
        unfold all_listed; simpl. rewrite Hr. reflexivity.
      * destruct (IH (page + 1)
                     (if page =? pages then acc ++ Js.arr_slice0 data rtf
                      else acc ++ data)
                     (if page =? pages then rtf else rtf - rows)
                     (w ++ [req])) as (ext & Hw & Hok).
        exists (req :: ext). split.
        -- rewrite Hw, <- app_assoc. reflexivity.
        -- rewrite <- Hok. unfold all_listed. simpl. rewrite Hr. reflexivity.
Qed.

End Loop.

Section Bulk.

Variable srv : DataSource.

Lemma all_listed_cons (w : World) (r : Request) (rs : list Request) :
  all_listed srv w (r :: rs) = true ->
  (exists d t, srv w r = Listing d t) /\ all_listed srv (w ++ [r]) rs = true.
Proof.
  unfold all_listed; simpl. intros H.
  apply andb_true_iff in H. destruct H as [H1 H2]. split; [|exact H2].
  destruct (srv w r); try discriminate. eauto.
Qed.

Lemma accumulated_nil (rem : Z) : accumulated [] rem = [].
Proof. unfold accumulated, Js.arr_slice0. simpl. apply firstn_nil. Qed.

Lemma accumulated_cons (x y : Response) (ys : list Response) (rem : Z) :
  accumulated (x :: y :: ys) rem = records x ++ accumulated (y :: ys) rem.
Proof.
  unfold accumulated.
  change (removelast (x :: y :: ys)) with (x :: removelast (y :: ys)).
  change (last (x :: y :: ys) ErrorBody) with (last (y :: ys) ErrorBody).
  simpl map. simpl List.concat. now rewrite <- app_assoc.
Qed.

(** With [c + 1] pages to go, each of which brings back an array, and
    more than [c * rows] records still wanted, the loop asks for every
    one of them and keeps the first [rtf - c * rows] records of the
    last. *)
Lemma for_pages_all (c : nat) fuel rows page acc rtf st w :
  0 <= rows ->
  0 < rtf - Z.of_nat c * rows ->
  (S c <= fuel)%nat ->
  all_listed srv w (page_requests (S c) rows page) = true ->
  for_pages srv fuel rows (page + Z.of_nat c) page acc rtf st w =
  (Resolved (acc ++ accumulated (responses srv w (page_requests (S c) rows page))
                                (rtf - Z.of_nat c * rows)),
   st, w ++ page_requests (S c) rows page).
Proof.
  revert fuel page acc rtf w.
  induction c as [|c IH]; intros fuel page acc rtf w Hrows Hrtf Hfuel Hok.
  - destruct fuel as [|fuel]; [lia|].
    apply all_listed_cons in Hok. destruct Hok as [(d & t & Hr) _].
    simpl Z.of_nat in *. rewrite Z.add_0_r.
    rewrite (for_pages_listing srv _ _ _ _ _ _ _ _ _ _ (Z.le_refl page) Hr).
    cbv zeta. rewrite Z.eqb_refl.
    replace (rtf <=? 0) with false by (symmetry; apply Z.leb_gt; lia).
    rewrite for_pages_done by lia.
    simpl. rewrite Hr. unfold accumulated. simpl.
    replace (rtf - 0) with rtf by lia. reflexivity.
  - destruct fuel as [|fuel]; [lia|].
    change (page_requests (S (S c)) rows page)
      with (mkRequest (inject_Z page) rows :: page_requests (S c) rows (page + 1)) in *.
    apply all_listed_cons in Hok. destruct Hok as [(d & t & Hr) Hok].
    assert (Hlt : page < page + Z.of_nat (S c)) by lia.
    rewrite (for_pages_listing srv _ _ _ _ _ _ _ _ _ _ (Z.lt_le_incl _ _ Hlt) Hr).
    cbv zeta.
    replace (page =? page + Z.of_nat (S c)) with false
      by (symmetry; apply Z.eqb_neq; lia).
    replace (rtf - rows <=? 0) with false by (symmetry; apply Z.leb_gt; nia).
    replace (page + Z.of_nat (S c)) with (page + 1 + Z.of_nat c) by lia.
    replace (rtf - Z.of_nat (S c) * rows)
      with (rtf - rows - Z.of_nat c * rows) in * by lia.
    rewrite IH; try lia; try assumption.
    simpl responses at 2. rewrite Hr.
    change (responses srv (w ++ [mkRequest (inject_Z page) rows])
                      (page_requests (S c) rows (page + 1)))
      with (srv (w ++ [mkRequest (inject_Z page) rows])
                (mkRequest (inject_Z (page + 1)) rows)
            :: responses srv ((w ++ [mkRequest (inject_Z page) rows])
                                ++ [mkRequest (inject_Z (page + 1)) rows])
                         (page_requests c rows (page + 1 + 1))).
    rewrite accumulated_cons. simpl records.
    rewrite <- !app_assoc. simpl app.
    reflexivity.
Qed.

(** [Math.ceil(n / rows)] on integers, by integer division. *)
Lemma ceil_div (n ps : Z) :
  0 < ps -> Js.Math_ceil (Js.div n ps) = - ((- n) / ps).
Proof.
  intros Hps. unfold Js.Math_ceil, Js.div, Qceiling. f_equal.
  rewrite Zdiv_Qdiv. apply Qfloor_comp.
  rewrite inject_Z_opp. unfold Qdiv. ring.
Qed.

Lemma ceil_div_split (n ps k r : Z) :
  0 < ps -> n = k * ps + r -> 0 <= r < ps ->
  Js.Math_ceil (Js.div n ps) = k + (if 0 <? r then 1 else 0).
Proof.
  intros Hps Hn Hr. rewrite ceil_div by assumption.
  destruct (0 <? r) eqn:E.
  - apply Z.ltb_lt in E.
    assert ((- n) / ps = - k - 1); [|lia].
    symmetry. apply Z.div_unique with (r := ps - r); [lia|]. subst n. ring.
  - apply Z.ltb_ge in E.
    assert ((- n) / ps = - k); [|lia].
    symmetry. apply Z.div_unique with (r := 0); [lia|]. subst n. lia.
Qed.

End Bulk.

Section Runs.

Variable srv : DataSource.

Lemma handleRowSelection_unfold st w :
  handleRowSelection srv st w =
  match completion (for_pages srv (Z.to_nat (bulk_pages st)) (rows st)
                              (bulk_pages st) 1 [] (rowCount st) st w) with
  | Resolved sel =>
      (Resolved tt, selected_and_reset sel st,
       world_after (for_pages srv (Z.to_nat (bulk_pages st)) (rows st)
                              (bulk_pages st) 1 [] (rowCount st) st w))
  | Rejected =>
      (Rejected, st,
       world_after (for_pages srv (Z.to_nat (bulk_pages st)) (rows st)
                              (bulk_pages st) 1 [] (rowCount st) st w))
  end.
Proof.
  unfold handleRowSelection, bind, bulk_pages.
  rewrite (for_pages_state srv _ _ _ _ _ _ st st w).
  destruct (completion _); reflexivity.
Qed.

(** As soon as one of the [c + 1] pages to go fails, the loop rejects. *)
Lemma for_pages_some_failed (c : nat) fuel rows page acc rtf st w :
  0 <= rows ->
  0 < rtf - Z.of_nat c * rows ->
  (S c <= fuel)%nat ->
  all_listed srv w (page_requests (S c) rows page) = false ->
  completion (for_pages srv fuel rows (page + Z.of_nat c) page acc rtf st w)
  = Rejected.
Proof.
  revert fuel page acc rtf w.
  induction c as [|c IH]; intros fuel page acc rtf w Hrows Hrtf Hfuel Hko;
    (destruct fuel as [|fuel]; [lia|]);
    change (page_requests (S ?n) rows page)
      with (mkRequest (inject_Z page) rows :: page_requests n rows (page + 1)) in Hko;
    unfold all_listed in Hko; simpl in Hko;
    destruct (srv w (mkRequest (inject_Z page) rows)) eqn:Hr;
    try (rewrite for_pages_failed by (try lia; rewrite Hr; reflexivity);
         reflexivity).
  - simpl in Hko. discriminate.
  - simpl in Hko.
    assert (Hlt : page < page + Z.of_nat (S c)) by lia.
    rewrite (for_pages_listing srv _ _ _ _ _ _ _ _ _ _ (Z.lt_le_incl _ _ Hlt) Hr).
    cbv zeta.
    replace (page =? page + Z.of_nat (S c)) with false
      by (symmetry; apply Z.eqb_neq; lia).
    replace (rtf - rows <=? 0) with false by (symmetry; apply Z.leb_gt; nia).
    replace (page + Z.of_nat (S c)) with (page + 1 + Z.of_nat c) by lia.
    apply IH; try lia; try assumption.
Qed.

Lemma bulk_pages_nonpos st :
  0 < rows st -> rowCount st <= 0 -> bulk_pages st <= 0.
Proof.
  intros Hps Hn. unfold bulk_pages. rewrite ceil_div by assumption.
  assert (0 <= (- rowCount st) / rows st) by (apply Z.div_pos; lia). lia.
Qed.

Lemma bulk_pages_pos st :
  0 < rows st -> 0 < rowCount st ->
  1 <= bulk_pages st /\
  rows st * (bulk_pages st - 1) < rowCount st <= rows st * bulk_pages st.
Proof.
  intros Hps Hn. unfold bulk_pages. rewrite ceil_div by assumption.
  pose proof (Z.div_mod (- rowCount st) (rows st)) as Hdm.
  pose proof (Z.mod_pos_bound (- rowCount st) (rows st) Hps) as Hm.
  nia.
Qed.

(** When every page of the run brings back an array, the run resolves
    after asking for each of them, and the selection is replaced. *)
Lemma handleRowSelection_resolved st w :
  0 < rows st ->
  all_listed srv w (bulk_requests st) = true ->
  handleRowSelection srv st w =
  (Resolved tt,
   selected_and_reset
     (accumulated (responses srv w (bulk_requests st))
                  (rowCount st - rows st * (bulk_pages st - 1))) st,
   w ++ bulk_requests st).
Proof.
  intros Hps Hok. rewrite handleRowSelection_unfold.
  destruct (Z_le_gt_dec (rowCount st) 0) as [Hn|Hn].
  - pose proof (bulk_pages_nonpos st Hps Hn) as Hp.
    unfold bulk_requests.
    replace (Z.to_nat (bulk_pages st)) with O by lia.
    simpl. rewrite app_nil_r, accumulated_nil. reflexivity.
  - destruct (bulk_pages_pos st Hps) as [Hp1 [Hlo Hhi]]; [lia|].
    unfold bulk_requests in *.
    remember (Z.to_nat (bulk_pages st) - 1)%nat as c eqn:Hc.
    assert (Hs : Z.to_nat (bulk_pages st) = S c) by lia.
    assert (Hz : bulk_pages st = 1 + Z.of_nat c) by lia.
    clear Hc Hp1. rewrite Hs in *. clear Hs. rewrite Hz in *. clear Hz.
    rewrite for_pages_all; try assumption; [|lia|nia|lia].
    unfold completion, world_after. cbn [fst snd app].
    replace (rows st * (1 + Z.of_nat c - 1)) with (Z.of_nat c * rows st) by ring.
    reflexivity.
Qed.

(** When one page of the run fails, the run rejects and the state is the
    one before the call. *)
Lemma handleRowSelection_rejected st w :
  0 < rows st ->
  all_listed srv w (bulk_requests st) = false ->
  completion (handleRowSelection srv st w) = Rejected /\
  state_after (handleRowSelection srv st w) = st.
Proof.
  intros Hps Hko. rewrite handleRowSelection_unfold.
  destruct (Z_le_gt_dec (rowCount st) 0) as [Hn|Hn].
  - pose proof (bulk_pages_nonpos st Hps Hn) as Hp.
    unfold bulk_requests in Hko.
    replace (Z.to_nat (bulk_pages st)) with O in Hko by lia.
    discriminate.
  - destruct (bulk_pages_pos st Hps) as [Hp1 [Hlo Hhi]]; [lia|].
    unfold bulk_requests in *.
    remember (Z.to_nat (bulk_pages st) - 1)%nat as c eqn:Hc.
    assert (Hs : Z.to_nat (bulk_pages st) = S c) by lia.
    assert (Hz : bulk_pages st = 1 + Z.of_nat c) by lia.
    clear Hc Hp1. rewrite Hs in *. clear Hs. rewrite Hz in *. clear Hz.
    rewrite for_pages_some_failed; try assumption; [|lia|nia|lia].
    split; reflexivity.
Qed.

(** The requests a run issues are the pages 1, 2, ... in order: a prefix
    of [bulk_requests] when it rejects, all of them when it resolves. *)
Lemma handleRowSelection_world st w :
  exists ext,
    world_after (handleRowSelection srv st w) = w ++ ext /\
    all_listed srv w ext =
    match completion (handleRowSelection srv st w) with
    | Resolved _ => true
    | Rejected => false
    end.
Proof.
  rewrite handleRowSelection_unfold.
  destruct (for_pages_log srv (Z.to_nat (bulk_pages st)) (rows st)
                          (bulk_pages st) 1 [] (rowCount st) st w)
    as (ext & Hw & Hok).
  exists ext.
  destruct (completion (for_pages _ _ _ _ _ _ _ _ _)); simpl; auto.
Qed.

End Runs.

(** ** Bulk selection: the properties *)

(** C5: with a positive page size and a row count of 0, the bulk selection
    resolves without issuing a single request and leaves an empty
    selection. *)
Theorem selectFirst_zero (srv : DataSource) (st : State) (w : World) :
  0 < rows st ->
  rowCount st = 0 ->
  completion (handleRowSelection srv st w) = Resolved tt /\
  world_after (handleRowSelection srv st w) = w /\
  selectedArtworks (state_after (handleRowSelection srv st w)) = [].
Proof.
  intros Hps Hn.
  assert (Hp : bulk_pages st <= 0) by (apply bulk_pages_nonpos; lia).
  assert (Hreq : bulk_requests st = []).
  { unfold bulk_requests. replace (Z.to_nat (bulk_pages st)) with O by lia.
    reflexivity. }
  rewrite handleRowSelection_resolved by (auto; rewrite Hreq; reflexivity).
  rewrite Hreq. simpl responses. rewrite accumulated_nil, app_nil_r.
  repeat split.
Qed.

Lemma selectFirst_zero_witness :
  0 < rows (asking_for 0) /\
  rowCount (asking_for 0) = 0 /\
  world_after (handleRowSelection (museum 50) (asking_for 0) []) = [] /\
  selectedArtworks
    (state_after (handleRowSelection (museum 50) (asking_for 0) [])) = [].
Proof.
  split; [reflexivity|]. split; [reflexivity|].
  apply (selectFirst_zero (museum 50) (asking_for 0) []); reflexivity.
Defined.

(** C1: when one of the page fetches of a bulk selection fails (the fetch
    rejects, the body does not parse, or it carries no records array), the
    whole operation rejects and the component state, the selection
    included, is what it was before the call. *)
Theorem selectFirst_failure_is_atomic (srv : DataSource) (st : State) (w : World) :
  0 < rows st ->
  all_listed srv w (bulk_requests st) = false ->
  completion (handleRowSelection srv st w) = Rejected /\
  state_after (handleRowSelection srv st w) = st /\
  selectedArtworks (state_after (handleRowSelection srv st w)) =
  selectedArtworks st.
Proof.
  intros Hps Hko.
  destruct (handleRowSelection_rejected srv st w Hps Hko) as [Hc Hs].
  rewrite Hs. auto.
Qed.

Lemma selectFirst_failure_is_atomic_witness :
  0 < rows (asking_for 25) /\
  all_listed (museum_failing_at 50 2) [] (bulk_requests (asking_for 25)) = false /\
  completion (handleRowSelection (museum_failing_at 50 2) (asking_for 25) [])
  = Rejected /\
  selectedArtworks
    (state_after (handleRowSelection (museum_failing_at 50 2) (asking_for 25) []))
  = [artwork_of 99].
Proof.
  split; [reflexivity|]. split; [vm_compute; reflexivity|].
  destruct (selectFirst_failure_is_atomic (museum_failing_at 50 2)
              (asking_for 25) []) as (Hc & _ & Hsel);
    [reflexivity | vm_compute; reflexivity |].
  split; [exact Hc | exact Hsel].
Defined.

Lemma arr_slice0_length {A : Type} (xs : list A) (e : Z) :
  0 <= e ->
  List.length (Js.arr_slice0 xs e) = Nat.min (Z.to_nat e) (List.length xs).
Proof.
  intros He. unfold Js.arr_slice0, Js.slice_end.
  replace (e <? 0) with false by (symmetry; apply Z.ltb_ge; lia).
  rewrite length_firstn. lia.
Qed.

(** Full pages all the way: the gathered records are every page but the
    last plus [rem] records. *)
Lemma accumulated_length (resps : list Response) (ps rem : Z) :
  resps <> [] ->
  Forall (fun x => Z.of_nat (List.length (records x)) = ps) resps ->
  0 <= rem <= ps ->
  Z.of_nat (List.length (accumulated resps rem)) =
  ps * (Z.of_nat (List.length resps) - 1) + rem.
Proof.
  intros Hne Hall Hrem.
  induction resps as [|x [|y ys] IH].
  - congruence.
  - inversion Hall as [|? ? Hx _]; subst.
    unfold accumulated. simpl.
    rewrite arr_slice0_length by lia. lia.
  - inversion Hall as [|? ? Hx Hys]; subst.
    rewrite accumulated_cons, length_app, Nat2Z.inj_add.
    rewrite IH; [|discriminate|assumption].
    simpl List.length. lia.
Qed.

(** C2: for [n = k * pageSize + r] with [0 <= r < pageSize], [n > 0], a
    bulk selection whose fetches all bring back an array asks for exactly
    [k + (1 if r > 0 else 0) = ceil(n / pageSize)] pages, namely 1, 2, ...
    in this order with [limit = pageSize]; it keeps every page but the
    last whole and the first [n - pageSize * (pages - 1)] records of the
    last; and when every page holds [pageSize] records the selection has
    exactly [n] records. *)
Theorem selectFirst_pages_and_size
        (srv : DataSource) (st : State) (w : World) (n ps k r : Z) :
  rowCount st = n ->
  rows st = ps ->
  0 < n ->
  0 < ps ->
  n = k * ps + r ->
  0 <= r < ps ->
  all_listed srv w (bulk_requests st) = true ->
  bulk_pages st = k + (if 0 <? r then 1 else 0) /\
  completion (handleRowSelection srv st w) = Resolved tt /\
  world_after (handleRowSelection srv st w) =
    w ++ page_requests (Z.to_nat (k + (if 0 <? r then 1 else 0))) ps 1 /\
  Z.of_nat (List.length
              (page_requests (Z.to_nat (k + (if 0 <? r then 1 else 0))) ps 1))
    = k + (if 0 <? r then 1 else 0) /\
  selectedArtworks (state_after (handleRowSelection srv st w)) =
    accumulated (responses srv w (bulk_requests st))
                (n - ps * (k + (if 0 <? r then 1 else 0) - 1)) /\
  (Forall (fun x => Z.of_nat (List.length (records x)) = ps)
          (responses srv w (bulk_requests st)) ->
   Z.of_nat (List.length
               (selectedArtworks (state_after (handleRowSelection srv st w))))
   = n).
Proof.
  intros Hn Hps Hnpos Hpspos Hsplit Hr Hok.
  assert (Hpages : bulk_pages st = k + (if 0 <? r then 1 else 0)).
  { unfold bulk_pages. rewrite Hn, Hps.
    apply ceil_div_split; assumption. }
  assert (Hrun := handleRowSelection_resolved srv st w).
  rewrite Hps in Hrun. specialize (Hrun Hpspos Hok).
  rewrite Hrun. unfold completion, world_after, state_after. cbn [fst snd].
  unfold selected_and_reset. cbn [selectedArtworks].
  rewrite Hn, Hpages.
  assert (Hk : 0 <= k) by nia.
  assert (Hp1 : 1 <= k + (if 0 <? r then 1 else 0)).
  { destruct (0 <? r) eqn:E; [lia|]. apply Z.ltb_ge in E. nia. }
  repeat split.
  - unfold bulk_requests. rewrite Hpages, Hps. reflexivity.
  - rewrite page_requests_length. lia.
  - intros Hfull.
    rewrite accumulated_length with (ps := ps); try assumption.
    + rewrite responses_length. unfold bulk_requests.
      rewrite page_requests_length, Hpages. 
      rewrite Z2Nat.id by lia. lia.
    + intros Hnil. apply (f_equal (@List.length _)) in Hnil.
      rewrite responses_length in Hnil. unfold bulk_requests in Hnil.
      rewrite page_requests_length, Hpages in Hnil. simpl in Hnil. lia.
    + destruct (0 <? r) eqn:E.
      * apply Z.ltb_lt in E. nia.
      * apply Z.ltb_ge in E. nia.
Qed.

(** The scenario of the specification: 50 records, pages of 12, the first
    25 asked for. *)
Lemma selectFirst_pages_and_size_witness :
  25 = 2 * 12 + 1 /\
  all_listed (museum 50) [] (bulk_requests (asking_for 25)) = true /\
  world_after (handleRowSelection (museum 50) (asking_for 25) []) =
    [mkRequest 1 12; mkRequest 2 12; mkRequest 3 12] /\
  map (fun x => List.length (records x))
      (responses (museum 50) [] (bulk_requests (asking_for 25)))
    = [12; 12; 12]%nat /\
  selectedArtworks (state_after (handleRowSelection (museum 50) (asking_for 25) []))
    = map artwork_of (ids_from 25 1) /\
  Z.of_nat (List.length
              (selectedArtworks
                 (state_after (handleRowSelection (museum 50) (asking_for 25) []))))
    = 25.
Proof.
  destruct (selectFirst_pages_and_size (museum 50) (asking_for 25) [] 25 12 2 1)
    as (_ & _ & Hw & _ & Hsel & Hsize);
    try reflexivity; try lia.
  split; [reflexivity|]. split; [vm_compute; reflexivity|].
  split; [exact Hw|]. split; [vm_compute; reflexivity|].
  split; [rewrite Hsel; vm_compute; reflexivity|].
  apply Hsize. vm_compute. repeat constructor.
Defined.

(** C6: a bulk selection that resolves leaves exactly the records it
    gathered from the pages it fetched; whatever was selected before plays
    no part, so that two runs differing only in the prior selection end in
    the same state. *)
Theorem selectFirst_overwrites
        (srv : DataSource) (st : State) (w : World) (sel : list Artwork) :
  0 < rows st ->
  completion (handleRowSelection srv st w) = Resolved tt ->
  handleRowSelection srv (with_selection sel st) w = handleRowSelection srv st w /\
  selectedArtworks (state_after (handleRowSelection srv st w)) =
    accumulated (responses srv w (bulk_requests st))
                (rowCount st - rows st * (bulk_pages st - 1)).
Proof.
  intros Hps Hres.
  destruct (all_listed srv w (bulk_requests st)) eqn:Hok.
  - rewrite (handleRowSelection_resolved srv st w Hps Hok).
    rewrite (handleRowSelection_resolved srv (with_selection sel st) w Hps Hok).
    split; reflexivity.
  - destruct (handleRowSelection_rejected srv st w Hps Hok) as [Hc _].
    rewrite Hc in Hres. discriminate.
Qed.

Lemma selectFirst_overwrites_witness :
  0 < rows (asking_for 25) /\
  completion (handleRowSelection (museum 50) (asking_for 25) []) = Resolved tt /\
  handleRowSelection (museum 50)
                     (with_selection [artwork_of 7; artwork_of 40] (asking_for 25)) []
  = handleRowSelection (museum 50) (asking_for 25) [] /\
  selectedArtworks (state_after (handleRowSelection (museum 50) (asking_for 25) []))
  = map artwork_of (ids_from 25 1).
Proof.
  split; [reflexivity|]. split; [vm_compute; reflexivity|].
  destruct (selectFirst_overwrites (museum 50) (asking_for 25) []
              [artwork_of 7; artwork_of 40]) as [Hsame Hsel];
    [reflexivity | vm_compute; reflexivity |].
  split; [exact Hsame|]. rewrite Hsel. vm_compute. reflexivity.
Defined.

(** C7, as the code has it: the loop never looks at how many records a
    page brought back.  As long as each fetch brings back an array (short
    or empty ones included) it asks for every page 1 .. ceil(n / pageSize)
    and then resolves; the page count bounds it. *)
Theorem selectFirst_fetches_every_page (srv : DataSource) (st : State) (w : World) :
  0 < rows st ->
  all_listed srv w (bulk_requests st) = true ->
  completion (handleRowSelection srv st w) = Resolved tt /\
  world_after (handleRowSelection srv st w) = w ++ bulk_requests st /\
  Z.of_nat (List.length (bulk_requests st)) = Z.max 0 (bulk_pages st).
Proof.
  intros Hps Hok.
  rewrite (handleRowSelection_resolved srv st w Hps Hok).
  repeat split.
  unfold bulk_requests. rewrite page_requests_length. lia.
Qed.

Lemma selectFirst_fetches_every_page_witness :
  0 < rows (asking_for 30) /\
  all_listed (museum 5) [] (bulk_requests (asking_for 30)) = true /\
  world_after (handleRowSelection (museum 5) (asking_for 30) []) =
    [mkRequest 1 12; mkRequest 2 12; mkRequest 3 12].
Proof.
  split; [reflexivity|]. split; [vm_compute; reflexivity|].
  destruct (selectFirst_fetches_every_page (museum 5) (asking_for 30) [])
    as (_ & Hw & _); [reflexivity | vm_compute; reflexivity |].
  exact Hw.
Defined.

(** C7, as stated, fails: 30 records are asked of a collection of 5 in
    pages of 12.  Page 1 brings back 5 records and page 2 none, and the
    loop still asks for all 3 = ceil(30 / 12) pages. *)
Lemma selectFirst_early_stop_counterexample :
  30 > 5 /\
  List.length (records (museum 5 [] (mkRequest 1 12))) = 5%nat /\
  List.length (records (museum 5 [mkRequest 1 12] (mkRequest 2 12))) = 0%nat /\
  bulk_pages (asking_for 30) = 3 /\
  world_after (handleRowSelection (museum 5) (asking_for 30) []) =
    [mkRequest 1 12; mkRequest 2 12; mkRequest 3 12] /\
  ~ (Z.of_nat (List.length
                 (world_after (handleRowSelection (museum 5) (asking_for 30) [])))
     < bulk_pages (asking_for 30)).
Proof.
  repeat split; try (vm_compute; reflexivity).
  vm_compute. discriminate.
Qed.

(** ** The page loader *)

Section Loader.

Variable srv : DataSource.

(** Whatever comes back, [fetchData] issues exactly one request, for the
    page and the limit it was given. *)
Lemma fetchData_world page pageSize st w :
  world_after (fetchData srv page pageSize st w) =
  w ++ [mkRequest page pageSize].
Proof.
  unfold fetchData, bind, setLoading, fetch_json.
  destruct (srv w (mkRequest page pageSize)); reflexivity.
Qed.

(** A listing is shown, its total recorded and the busy flag cleared. *)
Lemma fetchData_listing page pageSize st w d t :
  srv w (mkRequest page pageSize) = Listing d t ->
  fetchData srv page pageSize st w =
  (Resolved tt,
   mkState (Some d) t false (first st) (rows st) (selectedArtworks st)
           (rowCount st),
   w ++ [mkRequest page pageSize]).
Proof.
  intros Hr. unfold fetchData, bind, setLoading, fetch_json.
  rewrite Hr. reflexivity.
Qed.

(** A rejected fetch or an unparseable body stops [fetchData] right
    after [setLoading(true)]. *)
Lemma fetchData_rejected page pageSize st w :
  srv w (mkRequest page pageSize) = NetworkError \/
  srv w (mkRequest page pageSize) = NotJson ->
  fetchData srv page pageSize st w =
  (Rejected,
   mkState (artworks st) (totalRecords st) true (first st) (rows st)
           (selectedArtworks st) (rowCount st),
   w ++ [mkRequest page pageSize]).
Proof.
  intros [Hr|Hr]; unfold fetchData, bind, setLoading, fetch_json;
    rewrite Hr; reflexivity.
Qed.

(** An error object gets as far as [setArtworks(data.data)], which
    stores [undefined], and stops at [data.pagination.total]. *)
Lemma fetchData_error_body page pageSize st w :
  srv w (mkRequest page pageSize) = ErrorBody ->
  fetchData srv page pageSize st w =
  (Rejected,
   mkState None (totalRecords st) true (first st) (rows st)
           (selectedArtworks st) (rowCount st),
   w ++ [mkRequest page pageSize]).
Proof.
  intros Hr. unfold fetchData, bind, setLoading, fetch_json.
  rewrite Hr. reflexivity.
Qed.

(** [first / rows] is the integer quotient when [rows] divides [first]. *)
Lemma div_exact (a b : Z) :
  b <> 0 -> (b | a) -> (Js.div a b == inject_Z (a / b))%Q.
Proof.
  intros Hb [q Hq]. subst a. rewrite Z.div_mul by assumption.
  unfold Js.div. rewrite inject_Z_mult.
  apply Qdiv_mult_l.
  intros H. apply Hb. apply (inject_Z_injective b 0). exact H.
Qed.

End Loader.

(** C3: for every offset [>= 0] and page size [> 0] the component can
    hold, the loader's effect issues one request, for the page
    [floor(offset / pageSize) + 1] with [limit = pageSize].  An offset the
    component holds is the offset of a page, a multiple of the page size:
    [first] starts at 0 and is only ever written from a paginator event
    (lemma [reachable_aligned] below). *)
Theorem useEffect_requests_page (srv : DataSource) (st : State) (w : World) :
  0 <= first st ->
  0 < rows st ->
  (rows st | first st) ->
  exists req : Request,
    world_after (useEffect srv st w) = w ++ [req] /\
    (req_page req == inject_Z (first st / rows st + 1))%Q /\
    req_limit req = rows st.
Proof.
  intros Hoff Hps Hdiv.
  exists (mkRequest (Js.div (first st) (rows st) + 1)%Q (rows st)).
  split; [apply fetchData_world|]. split; [|reflexivity].
  simpl req_page. rewrite div_exact by (auto; lia).
  rewrite inject_Z_plus. reflexivity.
Qed.

Lemma useEffect_requests_page_witness :
  0 <= first (showing 24 12) /\
  0 < rows (showing 24 12) /\
  (rows (showing 24 12) | first (showing 24 12)) /\
  exists req : Request,
    world_after (useEffect (museum 50) (showing 24 12) []) = [] ++ [req] /\
    (req_page req == inject_Z 3)%Q /\
    req_limit req = 12.
Proof.
  split; [simpl; lia|]. split; [reflexivity|].
  split; [exists 2; reflexivity|].
  apply (useEffect_requests_page (museum 50) (showing 24 12) []).
  - simpl; lia.
  - reflexivity.
  - exists 2. reflexivity.
Defined.

(** Why the offset has to be that of a page: the source divides without
    rounding down, so from an offset of 5 in pages of 12, which no run of
    the component produces, the page asked for would be 5/12 + 1. *)
Lemma useEffect_off_page_boundary :
  0 <= first (showing 5 12) /\
  0 < rows (showing 5 12) /\
  world_after (useEffect (museum 50) (showing 5 12) []) = [mkRequest (17 # 12) 12] /\
  ~ (exists req : Request,
        world_after (useEffect (museum 50) (showing 5 12) []) = [] ++ [req] /\
        (req_page req == inject_Z (first (showing 5 12) / rows (showing 5 12) + 1))%Q /\
        req_limit req = rows (showing 5 12)).
Proof.
  split; [simpl; lia|]. split; [reflexivity|]. split; [reflexivity|].
  intros (req & Hw & Hp & _).
  vm_compute in Hw. injection Hw as Hreq. subst req.
  vm_compute in Hp. discriminate.
Qed.

(** C4, as the code has it: when the page load fails because the fetch
    rejects or the body does not parse, [fetchData] rejects towards its
    caller and the records on display and the known total are left as they
    were. *)
Theorem fetchData_failure_keeps_page
        (srv : DataSource) (page : Q) (pageSize : Z) (st : State) (w : World) :
  srv w (mkRequest page pageSize) = NetworkError \/
  srv w (mkRequest page pageSize) = NotJson ->
  completion (fetchData srv page pageSize st w) = Rejected /\
  artworks (state_after (fetchData srv page pageSize st w)) = artworks st /\
  totalRecords (state_after (fetchData srv page pageSize st w)) = totalRecords st.
Proof.
  intros Hr. rewrite (fetchData_rejected srv page pageSize st w Hr).
  repeat split.
Qed.

Lemma fetchData_failure_keeps_page_witness :
  (museum_failing_at 50 0 [] (mkRequest 2 12) = NetworkError \/
   museum_failing_at 50 0 [] (mkRequest 2 12) = NotJson) /\
  completion (fetchData (museum_failing_at 50 0) 2 12 (showing 12 12) [])
  = Rejected /\
  artworks (state_after (fetchData (museum_failing_at 50 0) 2 12 (showing 12 12) []))
  = Some [artwork_of 7].
Proof.
  split; [left; reflexivity|].
  destruct (fetchData_failure_keeps_page (museum_failing_at 50 0) 2 12
              (showing 12 12) []) as (Hc & Ha & _); [left; reflexivity|].
  split; [exact Hc | exact Ha].
Defined.

(** C4, as stated, fails.  A component at rest on page 2 reloads it.  When
    the fetch rejects, the busy flag raised before the fetch is still up
    afterwards; when the API answers with an error object, the flag is up
    as well and the records on display are replaced by [undefined]. *)
Lemma fetchData_failure_counterexample :
  loading (showing 12 12) = false /\
  failed (museum_failing_at 50 0 [] (mkRequest 2 12)) = true /\
  loading (state_after (fetchData (museum_failing_at 50 0) 2 12 (showing 12 12) []))
  = true /\
  ~ (artworks (state_after
                 (fetchData (museum_failing_at 50 0) 2 12 (showing 12 12) []))
     = artworks (showing 12 12) /\
     loading (state_after
                (fetchData (museum_failing_at 50 0) 2 12 (showing 12 12) []))
     = false) /\
  failed (museum_refusing_at 50 0 [] (mkRequest 2 12)) = true /\
  artworks (state_after (fetchData (museum_refusing_at 50 0) 2 12 (showing 12 12) []))
  = None /\
  ~ (artworks (state_after
                 (fetchData (museum_refusing_at 50 0) 2 12 (showing 12 12) []))
     = artworks (showing 12 12) /\
     loading (state_after
                (fetchData (museum_refusing_at 50 0) 2 12 (showing 12 12) []))
     = false).
Proof.
  repeat split; try reflexivity.
  - intros [_ H]. vm_compute in H. discriminate.
  - intros [H _]. vm_compute in H. discriminate.
Qed.

(** ** Per-row selection *)

Lemma selected_app (i : Z) (xs ys : list Artwork) :
  selected i (xs ++ ys) = selected i xs || selected i ys.
Proof. unfold selected. apply existsb_app. Qed.

Lemma selected_filter_out (i j : Z) (sel : list Artwork) :
  selected i (filter (fun b => negb (id b =? j)) sel) =
  selected i sel && negb (i =? j).
Proof.
  unfold selected. induction sel as [|b sel IH]; simpl; [reflexivity|].
  destruct (id b =? j) eqn:Ebj; simpl; rewrite IH.
  - apply Z.eqb_eq in Ebj. subst j.
    destruct (id b =? i) eqn:Ebi; simpl.
    + rewrite Z.eqb_sym, Ebi. simpl. now rewrite andb_false_r.
    + reflexivity.
  - destruct (id b =? i) eqn:Ebi; simpl; [|reflexivity].
    apply Z.eqb_eq in Ebi. subst i. rewrite Ebj. reflexivity.
Qed.

(** One toggle flips the membership of the row's identifier and of no
    other. *)
Lemma selected_toggle (a : Artwork) (sel : list Artwork) (i : Z) :
  selected i (toggle a sel) =
  if i =? id a then negb (selected i sel) else selected i sel.
Proof.
  unfold toggle.
  destruct (selected (id a) sel) eqn:Ea.
  - rewrite selected_filter_out.
    destruct (i =? id a) eqn:Ei; simpl.
    + apply Z.eqb_eq in Ei. subst i. rewrite Ea. reflexivity.
    + now rewrite andb_true_r.
  - rewrite selected_app. simpl. rewrite orb_false_r.
    destruct (i =? id a) eqn:Ei.
    + apply Z.eqb_eq in Ei. subst i. rewrite Ea, Z.eqb_refl. reflexivity.
    + rewrite Z.eqb_sym, Ei. now rewrite orb_false_r.
Qed.

(** C8: toggling a row adds its identifier when absent and removes it when
    present; toggling the same row twice gives back a selection with the
    same members as the original; and neither step issues a request. *)
Theorem toggle_twice_restores (a : Artwork) (st : State) (w : World) :
  (forall i : Z,
      selected i (selectedArtworks (state_after (rowToggle a st w))) =
      if i =? id a then negb (selected i (selectedArtworks st))
      else selected i (selectedArtworks st)) /\
  (forall i : Z,
      selected i (selectedArtworks (state_after (rowToggleTwice a st w))) =
      selected i (selectedArtworks st)) /\
  world_after (rowToggle a st w) = w /\
  world_after (rowToggleTwice a st w) = w.
Proof.
  unfold rowToggleTwice, rowToggle, onRowSelect, setSelectedArtworks,
    state_after, world_after.
  cbn [fst snd selectedArtworks].
  repeat split.
  - intros i. apply selected_toggle.
  - intros i. rewrite !selected_toggle.
    destruct (i =? id a); [apply negb_involutive | reflexivity].
Qed.

(** ** The inscriptions column *)

Lemma substring0_length (n : nat) (s : string) :
  String.length (substring 0 n s) = Nat.min n (String.length s).
Proof.
  revert n; induction s as [|ch s IH]; intros [|n]; simpl; auto.
Qed.

Lemma substring0_prefix (n : nat) (s : string) :
  prefix (substring 0 n s) s = true.
Proof.
  revert n; induction s as [|ch s IH]; intros [|n]; simpl; auto.
  destruct (Ascii.ascii_dec ch ch); [apply IH | congruence].
Qed.

Lemma append_same_l (s t : string) : (s ++ t)%string = s -> t = EmptyString.
Proof.
  induction s as [|ch s IH]; simpl; intros H; [exact H|].
  injection H as H. auto.
Qed.

(** A text longer than a non-negative limit is cut to its first
    [charLimit] characters. *)
Lemma truncateText_long (text : string) (charLimit : Z) :
  0 <= charLimit ->
  charLimit < Z.of_nat (String.length text) ->
  truncateText text charLimit = substring 0 (Z.to_nat charLimit) text.
Proof.
  intros H0 Hlt. unfold truncateText, Js.str_slice0, Js.slice_end.
  replace (Z.of_nat (String.length text) <=? charLimit) with false
    by (symmetry; apply Z.leb_gt; lia).
  replace (charLimit <? 0) with false by (symmetry; apply Z.ltb_ge; lia).
  f_equal. lia.
Qed.

Lemma truncateText_short (text : string) (charLimit : Z) :
  Z.of_nat (String.length text) <= charLimit ->
  truncateText text charLimit = text.
Proof.
  intros Hle. unfold truncateText.
  apply Z.leb_le in Hle. rewrite Hle. reflexivity.
Qed.

(** C10: for a limit [c >= 0], [truncateText] is the identity on texts of
    at most [c] characters; on longer ones its result has exactly [c]
    characters and is a prefix of the text; hence applying it twice is
    applying it once. *)
Theorem truncateText_spec (t : string) (c : Z) :
  0 <= c ->
  (Z.of_nat (String.length t) <= c -> truncateText t c = t) /\
  (c < Z.of_nat (String.length t) ->
   Z.of_nat (String.length (truncateText t c)) = c /\
   prefix (truncateText t c) t = true) /\
  truncateText (truncateText t c) c = truncateText t c.
Proof.
  intros Hc. split; [apply truncateText_short|].
  assert (Hlong : c < Z.of_nat (String.length t) ->
                  Z.of_nat (String.length (truncateText t c)) = c /\
                  prefix (truncateText t c) t = true).
  { intros Hlt. rewrite truncateText_long by assumption.
    rewrite substring0_length, substring0_prefix. split; [lia|reflexivity]. }
  split; [exact Hlong|].
  destruct (Z_le_gt_dec (Z.of_nat (String.length t)) c) as [Hle|Hgt].
  - rewrite (truncateText_short t c Hle). exact (truncateText_short t c Hle).
  - apply truncateText_short. destruct Hlong as [Hlen _]; lia.
Qed.

Lemma truncateText_spec_witness :
  0 <= 3 /\
  truncateText "abc" 3 = "abc"%string /\
  truncateText "abcdef" 3 = "abc"%string /\
  Z.of_nat (String.length (truncateText "abcdef" 3)) = 3 /\
  prefix (truncateText "abcdef" 3) "abcdef" = true /\
  truncateText (truncateText "abcdef" 3) 3 = truncateText "abcdef" 3.
Proof.
  destruct (truncateText_spec "abcdef" 3) as (_ & Hlong & Hidem); [lia|].
  destruct (truncateText_spec "abc" 3) as (Hshort & _ & _); [lia|].
  destruct Hlong as [Hlen Hpre]; [simpl; lia|].
  split; [lia|]. split; [apply Hshort; simpl; lia|].
  split; [reflexivity|]. split; [exact Hlen|]. split; [exact Hpre | exact Hidem].
Defined.

Lemma or_else_present (s d : string) :
  s <> EmptyString -> Js.or_else (Some s) d = s.
Proof. destruct s; [congruence | reflexivity]. Qed.

(** C9, as the code has it: the inscriptions cell shows ["N/A"] when the
    inscription is absent or empty, the inscription itself when it has at
    most 24 characters, and otherwise its first 24 characters and nothing
    after them. *)
Theorem inscriptions_rendering (a : Artwork) :
  (inscriptions a = None \/ inscriptions a = Some EmptyString ->
   inscriptionsBodyTemplate a = "N/A"%string) /\
  (forall s : string,
      inscriptions a = Some s -> s <> EmptyString ->
      (String.length s <= 24)%nat ->
      inscriptionsBodyTemplate a = s) /\
  (forall s : string,
      inscriptions a = Some s ->
      (24 < String.length s)%nat ->
      inscriptionsBodyTemplate a = substring 0 24 s /\
      String.length (inscriptionsBodyTemplate a) = 24%nat /\
      prefix (inscriptionsBodyTemplate a) s = true).
Proof.
  unfold inscriptionsBodyTemplate. repeat split.
  - intros [H|H]; rewrite H; reflexivity.
  - intros s Hs Hne Hlen. rewrite Hs, or_else_present by assumption.
    apply truncateText_short. lia.
  - rewrite H, or_else_present by (destruct s; simpl in *; [lia | discriminate]).
    rewrite truncateText_long by lia. reflexivity.
  - rewrite H, or_else_present by (destruct s; simpl in *; [lia | discriminate]).
    rewrite truncateText_long by lia.
    rewrite substring0_length. change (Z.to_nat 24) with 24%nat. lia.
  - rewrite H, or_else_present by (destruct s; simpl in *; [lia | discriminate]).
    rewrite truncateText_long by lia. apply substring0_prefix.
Qed.

Lemma inscriptions_rendering_witness :
  inscriptionsBodyTemplate unsigned_artwork = "N/A"%string /\
  inscriptionsBodyTemplate signed_artwork = "Signed and dated lower r"%string /\
  String.length (inscriptionsBodyTemplate signed_artwork) = 24%nat.
Proof.
  destruct (inscriptions_rendering unsigned_artwork) as (Habsent & _ & _).
  destruct (inscriptions_rendering signed_artwork) as (_ & _ & Hlong).
  destruct (Hlong "Signed and dated lower right: Monet 1906"%string)
    as (Htext & Hlen & _); [reflexivity | simpl; lia |].
  split; [apply Habsent; left; reflexivity|].
  split; [exact Htext | exact Hlen].
Defined.

(** C9, as stated, fails: an inscription of 40 characters is shown as its
    first 24 characters, a prefix of the inscription, with no ellipsis or
    anything else appended. *)
Lemma inscriptions_ellipsis_counterexample :
  inscriptions signed_artwork = Some "Signed and dated lower right: Monet 1906"%string /\
  inscriptionsBodyTemplate signed_artwork = "Signed and dated lower r"%string /\
  prefix (inscriptionsBodyTemplate signed_artwork)
         "Signed and dated lower right: Monet 1906" = true /\
  ~ (exists ellipsis : string,
        ellipsis <> EmptyString /\
        inscriptionsBodyTemplate signed_artwork =
        (substring 0 24 "Signed and dated lower right: Monet 1906" ++ ellipsis)%string).
Proof.
  split; [reflexivity|]. split; [reflexivity|]. split; [reflexivity|].
  intros (ell & Hne & H). apply Hne.
  apply (append_same_l "Signed and dated lower r"). symmetry. exact H.
Qed.

(** * Further properties *)

(** ** Page loads and the selection *)

Section LoaderFrame.

Variable srv : DataSource.

(** A page load writes [loading], [artworks] and [totalRecords] and
    nothing else, whatever comes back. *)
Lemma fetchData_frame page pageSize st w :
  first (state_after (fetchData srv page pageSize st w)) = first st /\
  rows (state_after (fetchData srv page pageSize st w)) = rows st /\
  selectedArtworks (state_after (fetchData srv page pageSize st w)) =
    selectedArtworks st /\
  rowCount (state_after (fetchData srv page pageSize st w)) = rowCount st.
Proof.
  unfold fetchData, bind, setLoading, fetch_json.
  destruct (srv w (mkRequest page pageSize)); repeat split.
Qed.

Lemma navigation_step_frame a st w :
  selectedArtworks (state_after (navigation_step srv a st w)) =
    selectedArtworks st /\
  rowCount (state_after (navigation_step srv a st w)) = rowCount st /\
  List.length (world_after (navigation_step srv a st w)) = S (List.length w).
Proof.
  destruct a as [e|]; simpl.
  - unfold onPageChange, bind, setFirst, setRows.
    match goal with
    | |- context [fetchData srv ?p ?l ?s w] =>
        destruct (fetchData_frame p l s w) as (_ & _ & Hsel & Hrc);
        pose proof (fetchData_world srv p l s w) as Hw;
        destruct (fetchData srv p l s w) as [[c s'] w']
    end.
    unfold state_after, world_after in *. cbn [fst snd] in *.
    rewrite Hw, length_app. simpl. split; [exact Hsel|]. split; [exact Hrc | lia].
  - unfold useEffect.
    destruct (fetchData_frame (Js.div (first st) (rows st) + 1)%Q (rows st) st w)
      as (_ & _ & Hsel & Hrc).
    rewrite fetchData_world, length_app. simpl.
    split; [exact Hsel|]. split; [exact Hrc | lia].
Qed.

End LoaderFrame.

(** X1: turning pages never touches the selection.  Through any session
    of paginator clicks and effect runs, whatever the data source answers
    (listings, rejections, error objects), the selected records and the
    row-count box stay as they were, and each step costs exactly one
    request. *)
Theorem navigate_keeps_selection
        (srv : DataSource) (steps : list Navigation) (st : State) (w : World) :
  selectedArtworks (fst (navigate srv steps st w)) = selectedArtworks st /\
  rowCount (fst (navigate srv steps st w)) = rowCount st /\
  List.length (snd (navigate srv steps st w)) =
    (List.length w + List.length steps)%nat.
Proof.
  revert st w. induction steps as [|a rest IH]; intros st w; simpl.
  - repeat split. lia.
  - destruct (navigation_step_frame srv a st w) as (Hsel & Hrc & Hlen).
    destruct (IH (state_after (navigation_step srv a st w))
                 (world_after (navigation_step srv a st w))) as (IH1 & IH2 & IH3).
    rewrite IH1, IH2, IH3, Hsel, Hrc, Hlen. repeat split. lia.
Qed.

(** What [onPageChange] does whatever the fetch brings. *)
Lemma onPageChange_run (srv : DataSource) (e : PageEvent) (st : State) (w : World) :
  first (state_after (onPageChange srv e st w)) = ev_first e /\
  rows (state_after (onPageChange srv e st w)) = ev_rows e /\
  world_after (onPageChange srv e st w) =
    w ++ [mkRequest (inject_Z (ev_page e + 1)) (ev_rows e)].
Proof.
  unfold onPageChange, bind, setFirst, setRows.
  match goal with
  | |- context [fetchData srv ?p ?l ?s w] =>
      destruct (fetchData_frame srv p l s w) as (Hf & Hr & _ & _);
      pose proof (fetchData_world srv p l s w) as Hw
  end.
  split; [exact Hf|]. split; [exact Hr | exact Hw].
Qed.

(** X2: [onPageChange] commits the new offset and page size before the
    fetch.  Whatever the fetch brings, [first] and [rows] are the event's
    and one request went out for page [e.page + 1] with [limit = e.rows];
    when the fetch rejects or the body does not parse, the load it started
    rejects with the records of the old page still on display. *)
Theorem onPageChange_commits_position
        (srv : DataSource) (e : PageEvent) (st : State) (w : World) :
  first (state_after (onPageChange srv e st w)) = ev_first e /\
  rows (state_after (onPageChange srv e st w)) = ev_rows e /\
  world_after (onPageChange srv e st w) =
    w ++ [mkRequest (inject_Z (ev_page e + 1)) (ev_rows e)] /\
  (srv w (mkRequest (inject_Z (ev_page e + 1)) (ev_rows e)) = NetworkError \/
   srv w (mkRequest (inject_Z (ev_page e + 1)) (ev_rows e)) = NotJson ->
   completion (onPageChange srv e st w) = Rejected /\
   artworks (state_after (onPageChange srv e st w)) = artworks st).
Proof.
  unfold onPageChange, bind, setFirst, setRows.
  match goal with
  | |- context [fetchData srv ?p ?l ?s w] =>
      destruct (fetchData_frame srv p l s w) as (Hf & Hr & _ & _);
      pose proof (fetchData_world srv p l s w) as Hw;
      pose proof (fetchData_rejected srv p l s w) as Hrej
  end.
  split; [exact Hf|]. split; [exact Hr|]. split; [exact Hw|].
  intros Hfail. rewrite (Hrej Hfail). split; reflexivity.
Qed.

Lemma onPageChange_commits_position_witness :
  (museum_failing_at 50 0 [] (mkRequest (inject_Z (2 + 1)) 12) = NetworkError \/
   museum_failing_at 50 0 [] (mkRequest (inject_Z (2 + 1)) 12) = NotJson) /\
  first (state_after (onPageChange (museum_failing_at 50 0)
                                   (mkPageEvent 24 12 2) (showing 0 12) [])) = 24 /\
  completion (onPageChange (museum_failing_at 50 0)
                           (mkPageEvent 24 12 2) (showing 0 12) []) = Rejected /\
  artworks (state_after (onPageChange (museum_failing_at 50 0)
                                      (mkPageEvent 24 12 2) (showing 0 12) []))
  = Some [artwork_of 7].
Proof.
  split; [left; reflexivity|].
  destruct (onPageChange_commits_position (museum_failing_at 50 0)
              (mkPageEvent 24 12 2) (showing 0 12) []) as (Hf & _ & _ & Hfail).
  destruct Hfail as [Hc Ha]; [left; reflexivity|].
  split; [exact Hf|]. split; [exact Hc | exact Ha].
Defined.

(** X3: the handler and the effect ask for the same page.  When the
    paginator's event is consistent ([e.first = e.page * e.rows] with
    [e.rows > 0]), the effect run from the state [onPageChange] leaves
    behind requests the page and the limit that [onPageChange] itself has
    just requested. *)
Theorem onPageChange_and_effect_agree
        (srv : DataSource) (e : PageEvent) (st : State) (w w' : World) :
  0 < ev_rows e ->
  ev_first e = ev_page e * ev_rows e ->
  exists r1 r2 : Request,
    world_after (onPageChange srv e st w) = w ++ [r1] /\
    world_after (useEffect srv (state_after (onPageChange srv e st w)) w')
      = w' ++ [r2] /\
    (req_page r2 == req_page r1)%Q /\
    req_limit r2 = req_limit r1.
Proof.
  intros Hrows Hfirst.
  destruct (onPageChange_run srv e st w) as (Hf & Hr & Hw).
  exists (mkRequest (inject_Z (ev_page e + 1)) (ev_rows e)).
  exists (mkRequest (Js.div (ev_first e) (ev_rows e) + 1)%Q (ev_rows e)).
  split; [exact Hw|]. split.
  - unfold useEffect. rewrite fetchData_world, Hf, Hr. reflexivity.
  - split; [|reflexivity]. simpl req_page.
    rewrite div_exact; [|lia|exists (ev_page e); exact Hfirst].
    rewrite Hfirst, Z.div_mul by lia.
    rewrite inject_Z_plus. reflexivity.
Qed.

Lemma onPageChange_and_effect_agree_witness :
  0 < ev_rows (mkPageEvent 24 12 2) /\
  ev_first (mkPageEvent 24 12 2) =
    ev_page (mkPageEvent 24 12 2) * ev_rows (mkPageEvent 24 12 2) /\
  exists r1 r2 : Request,
    world_after (onPageChange (museum 50) (mkPageEvent 24 12 2) (showing 0 12) [])
      = [] ++ [r1] /\
    world_after (useEffect (museum 50)
                   (state_after (onPageChange (museum 50) (mkPageEvent 24 12 2)
                                              (showing 0 12) []))
                   [mkRequest 3 12])
      = [mkRequest 3 12] ++ [r2] /\
    (req_page r2 == req_page r1)%Q /\
    req_limit r2 = req_limit r1.
Proof.
  split; [reflexivity|]. split; [reflexivity|].
  apply (onPageChange_and_effect_agree (museum 50) (mkPageEvent 24 12 2)
           (showing 0 12) [] [mkRequest 3 12]); reflexivity.
Defined.

(** X4: a successful load repairs everything a failed one left behind.
    After a load that failed in any way (busy flag stuck, and the records
    replaced by [undefined] when an error object came back), the next load
    that brings a listing leaves the state a first-time success would have
    left: the listing on display, its total, the busy flag down. *)
Theorem fetchData_retry_recovers
        (srv : DataSource) (page page' : Q) (pageSize pageSize' : Z)
        (st : State) (w : World) (d : list Artwork) (t : Z) :
  failed (srv w (mkRequest page pageSize)) = true ->
  srv (w ++ [mkRequest page pageSize]) (mkRequest page' pageSize') = Listing d t ->
  fetchData srv page' pageSize'
            (state_after (fetchData srv page pageSize st w))
            (world_after (fetchData srv page pageSize st w)) =
  (Resolved tt,
   mkState (Some d) t false (first st) (rows st) (selectedArtworks st) (rowCount st),
   w ++ [mkRequest page pageSize] ++ [mkRequest page' pageSize']).
Proof.
  intros Hfail Hok.
  rewrite fetchData_world.
  rewrite (fetchData_listing srv page' pageSize' _ _ d t Hok).
  destruct (fetchData_frame srv page pageSize st w) as (Hf & Hr & Hsel & Hrc).
  rewrite Hf, Hr, Hsel, Hrc, <- app_assoc. reflexivity.
Qed.

Lemma fetchData_retry_recovers_witness :
  failed (museum_refusing_at 50 0 [] (mkRequest 2 12)) = true /\
  artworks (state_after (fetchData (museum_refusing_at 50 0) 2 12 (showing 12 12) []))
  = None /\
  state_after
    (fetchData (museum_refusing_at 50 0) 2 12
       (state_after (fetchData (museum_refusing_at 50 0) 2 12 (showing 12 12) []))
       (world_after (fetchData (museum_refusing_at 50 0) 2 12 (showing 12 12) [])))
  = mkState (Some (map artwork_of (ids_from 12 13))) 50 false 12 12 [] 0.
Proof.
  split; [reflexivity|]. split; [reflexivity|].
  rewrite (fetchData_retry_recovers (museum_refusing_at 50 0) 2 2 12 12
             (showing 12 12) [] (map artwork_of (ids_from 12 13)) 50);
    reflexivity.
Defined.

(** ** More on the bulk selection *)

Section BulkMore.

Variable srv : DataSource.

Lemma firstn_min_length {A : Type} (n : nat) (xs : list A) :
  firstn (Nat.min n (List.length xs)) xs = firstn n xs.
Proof.
  destruct (Nat.le_gt_cases n (List.length xs)) as [H|H].
  - now rewrite Nat.min_l.
  - rewrite Nat.min_r by lia. rewrite !firstn_all2; auto; lia.
Qed.

(** Slicing an array up to a non-negative end keeps its first elements. *)
Lemma arr_slice0_firstn {A : Type} (xs : list A) (e : Z) :
  0 <= e -> Js.arr_slice0 xs e = firstn (Z.to_nat e) xs.
Proof.
  intros He. unfold Js.arr_slice0, Js.slice_end.
  replace (e <? 0) with false by (symmetry; apply Z.ltb_ge; lia).
  apply firstn_min_length.
Qed.

(** With nothing asked for, nothing is fetched and the selection is
    emptied. *)
Lemma handleRowSelection_nonpos st w :
  0 < rows st ->
  rowCount st <= 0 ->
  handleRowSelection srv st w = (Resolved tt, selected_and_reset [] st, w).
Proof.
  intros Hps Hn.
  assert (Hp : bulk_pages st <= 0) by (apply bulk_pages_nonpos; assumption).
  assert (Hreq : bulk_requests st = []).
  { unfold bulk_requests. replace (Z.to_nat (bulk_pages st)) with O by lia.
    reflexivity. }
  rewrite handleRowSelection_resolved by (auto; rewrite Hreq; reflexivity).
  rewrite Hreq. simpl responses. rewrite accumulated_nil, app_nil_r.
  reflexivity.
Qed.

(** When every page but the last is full, the gathered records are the
    first ones of the pages put end to end. *)
Lemma accumulated_firstn (resps : list Response) (ps rem : Z) :
  resps <> [] ->
  Forall (fun x => Z.of_nat (List.length (records x)) = ps) (removelast resps) ->
  0 <= rem ->
  accumulated resps rem =
  firstn (Z.to_nat (ps * (Z.of_nat (List.length resps) - 1) + rem))
         (List.concat (map records resps)).
Proof.
  intros Hne Hfull Hrem.
  induction resps as [|x [|y ys] IH].
  - congruence.
  - unfold accumulated. simpl.
    rewrite arr_slice0_firstn, app_nil_r by assumption.
    f_equal. lia.
  - change (removelast (x :: y :: ys)) with (x :: removelast (y :: ys)) in Hfull.
    inversion Hfull as [|? ? Hx Hrest]; subst.
    rewrite accumulated_cons, IH; [|discriminate|assumption].
    change (List.concat (map records (x :: y :: ys)))
      with (records x ++ List.concat (map records (y :: ys))).
    replace (Z.to_nat
               (Z.of_nat (List.length (records x)) *
                (Z.of_nat (List.length (x :: y :: ys)) - 1) + rem))
      with (List.length (records x) +
            Z.to_nat (Z.of_nat (List.length (records x)) *
                      (Z.of_nat (List.length (y :: ys)) - 1) + rem))%nat.
    + rewrite firstn_app_2. reflexivity.
    + simpl List.length. nia.
Qed.

(** When no page is longer than [ps], the gathered records are at most
    [ps] a page before the last plus [rem]. *)
Lemma accumulated_length_le (resps : list Response) (ps rem : Z) :
  resps <> [] ->
  Forall (fun x => Z.of_nat (List.length (records x)) <= ps) resps ->
  0 <= rem ->
  Z.of_nat (List.length (accumulated resps rem)) <=
  ps * (Z.of_nat (List.length resps) - 1) + rem.
Proof.
  intros Hne Hall Hrem.
  induction resps as [|x [|y ys] IH].
  - congruence.
  - unfold accumulated. simpl.
    rewrite arr_slice0_length by lia. lia.
  - inversion Hall as [|? ? Hx Hys]; subst.
    rewrite accumulated_cons, length_app, Nat2Z.inj_add.
    specialize (IH ltac:(discriminate) Hys).
    simpl List.length in *. lia.
Qed.

(** The log of the loop: the requests go out in page order and stop right
    after the first one that fails. *)
Lemma for_pages_world (c : nat) fuel rows page acc rtf st w :
  0 <= rows ->
  0 < rtf - Z.of_nat c * rows ->
  (S c <= fuel)%nat ->
  world_after (for_pages srv fuel rows (page + Z.of_nat c) page acc rtf st w) =
  w ++ firstn (issued srv w (page_requests (S c) rows page))
              (page_requests (S c) rows page).
Proof.
  revert fuel page acc rtf w.
  induction c as [|c IH]; intros fuel page acc rtf w Hrows Hrtf Hfuel;
    (destruct fuel as [|fuel]; [lia|]);
    change (page_requests (S ?n) rows page)
      with (mkRequest (inject_Z page) rows :: page_requests n rows (page + 1));
    cbn [issued];
    destruct (srv w (mkRequest (inject_Z page) rows)) eqn:Hr;
    try (rewrite for_pages_failed by (try lia; rewrite Hr; reflexivity);
         reflexivity).
  - simpl Z.of_nat in *. rewrite Z.add_0_r.
    rewrite (for_pages_listing srv _ _ _ _ _ _ _ _ _ _ (Z.le_refl page) Hr).
    cbv zeta. rewrite Z.eqb_refl.
    replace (rtf <=? 0) with false by (symmetry; apply Z.leb_gt; lia).
    rewrite for_pages_done by lia. reflexivity.
  - assert (Hlt : page < page + Z.of_nat (S c)) by lia.
    rewrite (for_pages_listing srv _ _ _ _ _ _ _ _ _ _ (Z.lt_le_incl _ _ Hlt) Hr).
    cbv zeta.
    replace (page =? page + Z.of_nat (S c)) with false
      by (symmetry; apply Z.eqb_neq; lia).
    replace (rtf - rows <=? 0) with false by (symmetry; apply Z.leb_gt; nia).
    replace (page + Z.of_nat (S c)) with (page + 1 + Z.of_nat c) by lia.
    rewrite IH by (try assumption; nia).
    cbn [failed firstn]. rewrite <- app_assoc. reflexivity.
Qed.

End BulkMore.

(** X5: a bulk selection of at most one page.  For [0 < n <= pageSize]
    and a listing on page 1, exactly one request goes out (page 1) and the
    selection becomes the first [n] records of that page, so that it has
    [min(n, records on the page)] elements. *)
Theorem selectFirst_within_one_page
        (srv : DataSource) (st : State) (w : World) (d : list Artwork) (t : Z) :
  0 < rowCount st <= rows st ->
  srv w (mkRequest 1 (rows st)) = Listing d t ->
  handleRowSelection srv st w =
    (Resolved tt,
     selected_and_reset (firstn (Z.to_nat (rowCount st)) d) st,
     w ++ [mkRequest 1 (rows st)]) /\
  List.length (selectedArtworks (state_after (handleRowSelection srv st w))) =
    Nat.min (Z.to_nat (rowCount st)) (List.length d).
Proof.
  intros Hn Hr.
  assert (Hps : 0 < rows st) by lia.
  destruct (bulk_pages_pos st Hps) as (Hp1 & Hlo & _); [lia|].
  assert (Hp : bulk_pages st = 1) by nia.
  assert (Hreq : bulk_requests st = [mkRequest 1 (rows st)]).
  { unfold bulk_requests. rewrite Hp. reflexivity. }
  assert (Hok : all_listed srv w (bulk_requests st) = true).
  { rewrite Hreq. unfold all_listed. simpl. rewrite Hr. reflexivity. }
  rewrite (handleRowSelection_resolved srv st w Hps Hok).
  rewrite Hreq, Hp. simpl responses. rewrite Hr.
  unfold accumulated. simpl.
  rewrite arr_slice0_firstn by lia.
  replace (rowCount st - rows st * 0) with (rowCount st) by lia.
  split; [reflexivity|].
  unfold state_after. simpl. apply length_firstn.
Qed.

Lemma selectFirst_within_one_page_witness :
  0 < rowCount (asking_for 7) <= rows (asking_for 7) /\
  world_after (handleRowSelection (museum 5) (asking_for 7) []) = [mkRequest 1 12] /\
  selectedArtworks (state_after (handleRowSelection (museum 5) (asking_for 7) []))
  = map artwork_of (ids_from 5 1) /\
  List.length
    (selectedArtworks (state_after (handleRowSelection (museum 5) (asking_for 7) [])))
  = Nat.min 7 5.
Proof.
  split; [simpl; lia|].
  destruct (selectFirst_within_one_page (museum 5) (asking_for 7) []
              (map artwork_of (ids_from 5 1)) 5) as [Hrun Hlen];
    [simpl; lia | reflexivity |].
  rewrite Hrun in *. split; [reflexivity|]. split; [reflexivity | exact Hlen].
Defined.

(** X6: the selection is the first [n] records overall.  When every fetch
    brings a listing and every page but the last holds exactly [pageSize]
    records, a bulk selection of [n > 0] leaves the first [n] records of
    the fetched pages put end to end (all of them if there are fewer). *)
Theorem selectFirst_is_overall_prefix
        (srv : DataSource) (st : State) (w : World) :
  0 < rows st ->
  0 < rowCount st ->
  all_listed srv w (bulk_requests st) = true ->
  Forall (fun x => Z.of_nat (List.length (records x)) = rows st)
         (removelast (responses srv w (bulk_requests st))) ->
  selectedArtworks (state_after (handleRowSelection srv st w)) =
  firstn (Z.to_nat (rowCount st))
         (List.concat (map records (responses srv w (bulk_requests st)))).
Proof.
  intros Hps Hn Hok Hfull.
  destruct (bulk_pages_pos st Hps Hn) as (Hp1 & Hlo & Hhi).
  rewrite (handleRowSelection_resolved srv st w Hps Hok).
  unfold state_after, selected_and_reset. cbn [fst snd selectedArtworks].
  assert (Hlen : Z.of_nat (List.length (responses srv w (bulk_requests st)))
                 = bulk_pages st).
  { rewrite responses_length. unfold bulk_requests.
    rewrite page_requests_length. lia. }
  rewrite accumulated_firstn with (ps := rows st); try assumption.
  - rewrite Hlen. f_equal. lia.
  - intros Hnil. rewrite Hnil in Hlen. simpl in Hlen. lia.
  - lia.
Qed.

Lemma selectFirst_is_overall_prefix_witness :
  all_listed (museum 30) [] (bulk_requests (asking_for 33)) = true /\
  map (fun x => List.length (records x))
      (responses (museum 30) [] (bulk_requests (asking_for 33)))
    = [12; 12; 6]%nat /\
  selectedArtworks (state_after (handleRowSelection (museum 30) (asking_for 33) []))
  = map artwork_of (ids_from 30 1).
Proof.
  split; [vm_compute; reflexivity|]. split; [vm_compute; reflexivity|].
  rewrite (selectFirst_is_overall_prefix (museum 30) (asking_for 33) []).
  - vm_compute. reflexivity.
  - reflexivity.
  - reflexivity.
  - vm_compute. reflexivity.
  - vm_compute. repeat constructor.
Defined.

(** X7: never more than asked for.  When every fetch brings a listing of
    at most [pageSize] records, a bulk selection leaves at most [n]
    records selected (none for [n <= 0]). *)
Theorem selectFirst_size_bound (srv : DataSource) (st : State) (w : World) :
  0 < rows st ->
  all_listed srv w (bulk_requests st) = true ->
  Forall (fun x => Z.of_nat (List.length (records x)) <= rows st)
         (responses srv w (bulk_requests st)) ->
  Z.of_nat (List.length
              (selectedArtworks (state_after (handleRowSelection srv st w))))
  <= Z.max 0 (rowCount st).
Proof.
  intros Hps Hok Hle.
  destruct (Z_le_gt_dec (rowCount st) 0) as [Hn|Hn].
  - rewrite handleRowSelection_nonpos by assumption. simpl. lia.
  - destruct (bulk_pages_pos st Hps) as (Hp1 & Hlo & Hhi); [lia|].
    rewrite (handleRowSelection_resolved srv st w Hps Hok).
    unfold state_after, selected_and_reset. cbn [fst snd selectedArtworks].
    assert (Hlen : Z.of_nat (List.length (responses srv w (bulk_requests st)))
                   = bulk_pages st).
    { rewrite responses_length. unfold bulk_requests.
      rewrite page_requests_length. lia. }
    pose proof (accumulated_length_le
                  (responses srv w (bulk_requests st)) (rows st)
                  (rowCount st - rows st * (bulk_pages st - 1))) as Hacc.
    rewrite Hlen in Hacc.
    assert (Hne : responses srv w (bulk_requests st) <> []).
    { intros Hnil. rewrite Hnil in Hlen. simpl in Hlen. lia. }
    specialize (Hacc Hne Hle ltac:(lia)). lia.
Qed.

Lemma selectFirst_size_bound_witness :
  0 < rows (asking_for 30) /\
  all_listed (museum 20) [] (bulk_requests (asking_for 30)) = true /\
  Z.of_nat (List.length
              (selectedArtworks
                 (state_after (handleRowSelection (museum 20) (asking_for 30) []))))
  <= Z.max 0 (rowCount (asking_for 30)).
Proof.
  split; [reflexivity|]. split; [vm_compute; reflexivity|].
  apply (selectFirst_size_bound (museum 20) (asking_for 30) []).
  - reflexivity.
  - vm_compute. reflexivity.
  - vm_compute. repeat constructor; discriminate.
Defined.

(** X8: the requests of a bulk selection.  For a positive page size the
    run sends the requests for pages 1, 2, ..., ceil(n / pageSize) in this
    order and stops right after the first one that fails; it never asks
    for a page past the first failure or past the last page, and it
    resolves exactly when every one of these pages brings a listing. *)
Theorem selectFirst_request_log (srv : DataSource) (st : State) (w : World) :
  0 < rows st ->
  world_after (handleRowSelection srv st w) =
    w ++ firstn (issued srv w (bulk_requests st)) (bulk_requests st) /\
  (completion (handleRowSelection srv st w) = Resolved tt <->
   all_listed srv w (bulk_requests st) = true).
Proof.
  intros Hps. split.
  - rewrite handleRowSelection_unfold.
    assert (Hw : world_after
                   (for_pages srv (Z.to_nat (bulk_pages st)) (rows st)
                              (bulk_pages st) 1 [] (rowCount st) st w) =
                 w ++ firstn (issued srv w (bulk_requests st)) (bulk_requests st)).
    { destruct (Z_le_gt_dec (rowCount st) 0) as [Hn|Hn].
      - pose proof (bulk_pages_nonpos st Hps Hn) as Hp.
        unfold bulk_requests.
        replace (Z.to_nat (bulk_pages st)) with O by lia.
        simpl. now rewrite app_nil_r.
      - destruct (bulk_pages_pos st Hps) as [Hp1 [Hlo Hhi]]; [lia|].
        unfold bulk_requests.
        remember (Z.to_nat (bulk_pages st) - 1)%nat as c eqn:Hc.
        assert (Hs : Z.to_nat (bulk_pages st) = S c) by lia.
        assert (Hz : bulk_pages st = 1 + Z.of_nat c) by lia.
        clear Hc Hp1. rewrite Hs. clear Hs. rewrite Hz in *. clear Hz.
        apply for_pages_world; [lia|nia|lia]. }
    destruct (completion _); exact Hw.
  - split.
    + intros Hres.
      destruct (all_listed srv w (bulk_requests st)) eqn:Hok; [reflexivity|].
      destruct (handleRowSelection_rejected srv st w Hps Hok) as [Hc _].
      rewrite Hc in Hres. discriminate.
    + intros Hok. rewrite (handleRowSelection_resolved srv st w Hps Hok).
      reflexivity.
Qed.

Lemma selectFirst_request_log_witness :
  0 < rows (asking_for 40) /\
  bulk_requests (asking_for 40) =
    [mkRequest 1 12; mkRequest 2 12; mkRequest 3 12; mkRequest 4 12] /\
  issued (museum_failing_at 50 1) [] (bulk_requests (asking_for 40)) = 2%nat /\
  world_after (handleRowSelection (museum_failing_at 50 1) (asking_for 40) []) =
    [mkRequest 1 12; mkRequest 2 12].
Proof.
  split; [reflexivity|]. split; [vm_compute; reflexivity|].
  split; [vm_compute; reflexivity|].
  destruct (selectFirst_request_log (museum_failing_at 50 1) (asking_for 40) [])
    as [Hw _]; [reflexivity|].
  rewrite Hw. vm_compute. reflexivity.
Defined.

(** X9: submitting twice clears the selection.  A bulk selection that
    resolves empties the row-count box, so that the next submission, from
    the state it left, sends no request and replaces the selection just
    made by the empty one. *)
Theorem selectFirst_twice_clears (srv : DataSource) (st : State) (w : World) :
  0 < rows st ->
  completion (handleRowSelection srv st w) = Resolved tt ->
  rowCount (state_after (handleRowSelection srv st w)) = 0 /\
  world_after (handleRowSelection srv
                 (state_after (handleRowSelection srv st w))
                 (world_after (handleRowSelection srv st w)))
    = world_after (handleRowSelection srv st w) /\
  selectedArtworks
    (state_after (handleRowSelection srv
                    (state_after (handleRowSelection srv st w))
                    (world_after (handleRowSelection srv st w)))) = [].
Proof.
  intros Hps Hres.
  assert (Hok : all_listed srv w (bulk_requests st) = true).
  { destruct (all_listed srv w (bulk_requests st)) eqn:Hok; [reflexivity|].
    destruct (handleRowSelection_rejected srv st w Hps Hok) as [Hc _].
    rewrite Hc in Hres. discriminate. }
  rewrite (handleRowSelection_resolved srv st w Hps Hok).
  unfold state_after at 1 2 4, world_after at 2 3. cbn [fst snd].
  rewrite handleRowSelection_nonpos; [|exact Hps|simpl; lia].
  repeat split.
Qed.

Lemma selectFirst_twice_clears_witness :
  0 < rows (asking_for 25) /\
  completion (handleRowSelection (museum 50) (asking_for 25) []) = Resolved tt /\
  List.length
    (selectedArtworks (state_after (handleRowSelection (museum 50) (asking_for 25) [])))
  = 25%nat /\
  selectedArtworks
    (state_after (handleRowSelection (museum 50)
                    (state_after (handleRowSelection (museum 50) (asking_for 25) []))
                    (world_after (handleRowSelection (museum 50) (asking_for 25) []))))
  = [].
Proof.
  split; [reflexivity|]. split; [vm_compute; reflexivity|].
  split; [vm_compute; reflexivity|].
  destruct (selectFirst_twice_clears (museum 50) (asking_for 25) [])
    as (_ & _ & Hsel); [reflexivity | vm_compute; reflexivity |].
  exact Hsel.
Defined.

(** X10: a bulk selection leaves the page on display alone.  Resolved or
    rejected, it changes neither the records shown, nor the total, nor the
    busy flag (no busy indicator is raised while it fetches), nor the
    offset and page size of the paginator. *)
Theorem selectFirst_keeps_page (srv : DataSource) (st : State) (w : World) :
  0 < rows st ->
  artworks (state_after (handleRowSelection srv st w)) = artworks st /\
  totalRecords (state_after (handleRowSelection srv st w)) = totalRecords st /\
  loading (state_after (handleRowSelection srv st w)) = loading st /\
  first (state_after (handleRowSelection srv st w)) = first st /\
  rows (state_after (handleRowSelection srv st w)) = rows st.
Proof.
  intros _. rewrite handleRowSelection_unfold.
  destruct (completion _); repeat split.
Qed.

Lemma selectFirst_keeps_page_witness :
  0 < rows (asking_for 25) /\
  artworks (state_after (handleRowSelection (museum 50) (asking_for 25) []))
  = Some [] /\
  loading (state_after (handleRowSelection (museum_failing_at 50 1) (asking_for 25) []))
  = false.
Proof.
  split; [reflexivity|].
  destruct (selectFirst_keeps_page (museum 50) (asking_for 25) [])
    as (Ha & _); [reflexivity|].
  destruct (selectFirst_keeps_page (museum_failing_at 50 1) (asking_for 25) [])
    as (_ & _ & Hl & _); [reflexivity|].
  split; [exact Ha | exact Hl].
Defined.

(** ** The artist column *)

Lemma string_app_assoc (s t u : string) :
  ((s ++ t) ++ u)%string = (s ++ (t ++ u))%string.
Proof. induction s as [|c s IH]; simpl; [reflexivity | now rewrite IH]. Qed.

Lemma string_forall_weaken (p q : ascii -> bool) (s : string) :
  (forall c, p c = true -> q c = true) ->
  string_forall p s = true -> string_forall q s = true.
Proof.
  intros Hpq. induction s as [|c s IH]; simpl; [auto|].
  intros H. apply andb_true_iff in H. destruct H as [Hc Hs].
  rewrite (Hpq c Hc), (IH Hs). reflexivity.
Qed.

Lemma before_separator_clean (s : string) :
  string_forall (fun c => negb (is_separator c)) (before_separator s) = true.
Proof.
  induction s as [|c s IH]; simpl; [reflexivity|].
  destruct (is_separator c) eqn:E; simpl; [reflexivity|].
  rewrite E, IH. reflexivity.
Qed.

(** [before_separator] cuts at the first separator. *)
Lemma before_separator_split (s : string) :
  exists rest : string,
    s = (before_separator s ++ rest)%string /\
    (rest = EmptyString \/
     exists c rest', rest = String c rest' /\ is_separator c = true).
Proof.
  induction s as [|c s (rest & Hs & Hrest)]; simpl.
  - exists EmptyString. auto.
  - destruct (is_separator c) eqn:E.
    + exists (String c s). split; [reflexivity|]. right. eauto.
    + exists rest. simpl. split; [now rewrite <- Hs | exact Hrest].
Qed.

Lemma trim_start_split (s : string) :
  exists pre : string,
    s = (pre ++ trim_start s)%string /\ string_forall is_space pre = true.
Proof.
  induction s as [|c s (pre & Hs & Hpre)]; simpl.
  - exists EmptyString. auto.
  - destruct (is_space c) eqn:E.
    + exists (String c pre). simpl. rewrite E, Hpre, <- Hs. auto.
    + exists EmptyString. auto.
Qed.

Lemma trim_end_split (s : string) :
  exists post : string,
    s = (trim_end s ++ post)%string /\ string_forall is_space post = true.
Proof.
  induction s as [|c s (post & Hs & Hpost)]; simpl.
  - exists EmptyString. auto.
  - destruct (trim_end s) as [|c' t] eqn:Et.
    + destruct (is_space c) eqn:E.
      * exists (String c post). simpl in *. rewrite E, Hpost, <- Hs. auto.
      * exists post. simpl in *. split; [now f_equal | exact Hpost].
    + exists post. simpl in *. split; [now f_equal | exact Hpost].
Qed.

Lemma trim_start_forall (p : ascii -> bool) (s : string) :
  string_forall p s = true -> string_forall p (trim_start s) = true.
Proof.
  induction s as [|c s IH]; simpl; [auto|].
  intros H. destruct (is_space c); [|exact H].
  apply andb_true_iff in H. destruct H as [_ Hs]. auto.
Qed.

Lemma trim_end_forall (p : ascii -> bool) (s : string) :
  string_forall p s = true -> string_forall p (trim_end s) = true.
Proof.
  induction s as [|c s IH]; simpl; [auto|].
  intros H. apply andb_true_iff in H. destruct H as [Hc Hs].
  specialize (IH Hs).
  destruct (trim_end s) as [|c' t].
  - destruct (is_space c); simpl; [reflexivity|]. now rewrite Hc.
  - simpl in *. now rewrite Hc, IH.
Qed.

(** [trim_start] leaves no white space in front. *)
Lemma trim_start_head (s : string) (c : ascii) (t : string) :
  trim_start s = String c t -> is_space c = false.
Proof.
  induction s as [|a s IH]; simpl; [discriminate|].
  destruct (is_space a) eqn:E; [exact IH|].
  intros H. injection H as Ha _. now subst a.
Qed.

(** [trim_end] keeps the head of a text that starts with a visible
    character. *)
Lemma trim_end_head (s : string) (c : ascii) (t : string) :
  trim_end s = String c t -> exists s', s = String c s'.
Proof.
  destruct s as [|a s]; simpl; [discriminate|].
  destruct (trim_end s); [destruct (is_space a); [discriminate|]|];
    intros H; injection H as Ha _; subst a; eauto.
Qed.

(** [trim_end] leaves no white space at the end. *)
Lemma trim_end_last (s : string) (c : ascii) (t : string) :
  is_space c = true -> trim_end s <> (t ++ String c EmptyString)%string.
Proof.
  intros Hc. revert t. induction s as [|a s IH]; intros t; simpl.
  - destruct t; discriminate.
  - destruct (trim_end s) as [|c' u] eqn:Eu.
    + destruct (is_space a) eqn:Ea.
      * destruct t; discriminate.
      * destruct t as [|b t]; simpl; intros H.
        -- injection H as Hab. subst a. congruence.
        -- injection H as _ H. destruct t; discriminate.
    + destruct t as [|b t]; simpl; intros H.
      * injection H as _ H. discriminate.
      * injection H as _ H. exact (IH t H).
Qed.

(** X11: the artist cell is clean.  Whatever the artist descriptor, the
    text shown contains neither an opening parenthesis nor a comma, and it
    neither starts nor ends with a white-space character. *)
Theorem artistBodyTemplate_clean (a : Artwork) :
  string_forall (fun c => negb (is_separator c)) (artistBodyTemplate a) = true /\
  (forall (c : ascii) (t : string),
      is_space c = true ->
      artistBodyTemplate a <> String c t /\
      artistBodyTemplate a <> (t ++ String c EmptyString)%string).
Proof.
  unfold artistBodyTemplate, trim. split.
  - apply trim_end_forall, trim_start_forall, before_separator_clean.
  - intros c t Hc. split.
    + intros H. destruct (trim_end_head _ _ _ H) as [s' Hs'].
      apply trim_start_head in Hs'. congruence.
    + apply trim_end_last. exact Hc.
Qed.

(** X12: the artist cell is cut out of the descriptor.  The descriptor
    reads: white space, the text shown, white space, and then either
    nothing or a remainder that starts with the first opening parenthesis
    or comma of the descriptor, none of which occurs in the white space or
    in the text shown. *)
Theorem artistBodyTemplate_is_first_clause (a : Artwork) :
  exists pre post rest : string,
    artist_display a = (pre ++ artistBodyTemplate a ++ post ++ rest)%string /\
    string_forall is_space pre = true /\
    string_forall is_space post = true /\
    string_forall (fun c => negb (is_separator c)) (pre ++ post) = true /\
    string_forall (fun c => negb (is_separator c)) (artistBodyTemplate a) = true /\
    (rest = EmptyString \/
     exists c rest', rest = String c rest' /\ is_separator c = true).
Proof.
  unfold artistBodyTemplate, trim.
  destruct (before_separator_split (artist_display a)) as (rest & Hd & Hrest).
  destruct (trim_start_split (before_separator (artist_display a)))
    as (pre & Hpre & Hsp).
  destruct (trim_end_split (trim_start (before_separator (artist_display a))))
    as (post & Hpost & Hsq).
  exists pre, post, rest.
  split; [|split; [exact Hsp|split; [exact Hsq|split; [|split; [|exact Hrest]]]]].
  3: apply trim_end_forall, trim_start_forall, before_separator_clean.
  - rewrite <- (string_app_assoc _ post rest).
    rewrite <- (string_app_assoc pre _ rest).
    rewrite <- Hpost, <- Hpre. exact Hd.
  - assert (Hsep : forall c, is_space c = true -> negb (is_separator c) = true).
    { intros c. unfold is_space, is_separator.
      destruct c as [[] [] [] [] [] [] [] []]; simpl; intros H;
        try reflexivity; discriminate. }
    clear - Hsp Hsq Hsep.
    induction pre as [|c pre IH]; simpl in *.
    + exact (string_forall_weaken _ _ _ Hsep Hsq).
    + apply andb_true_iff in Hsp. destruct Hsp as [Hc Hp].
      rewrite (Hsep c Hc), (IH Hp). reflexivity.
Qed.

Lemma artistBodyTemplate_clean_witness :
  artistBodyTemplate signed_artwork = "Claude Monet"%string /\
  is_space " " = true /\
  artistBodyTemplate signed_artwork <> String " " "Claude Monet" /\
  artistBodyTemplate signed_artwork <> ("Claude Monet" ++ String " " EmptyString)%string.
Proof.
  split; [reflexivity|]. split; [reflexivity|].
  destruct (artistBodyTemplate_clean signed_artwork) as [_ H].
  split.
  - apply (H " "%char "Claude Monet"%string). reflexivity.
  - apply (H " "%char "Claude Monet"%string). reflexivity.
Defined.

(** ** The inscriptions cell, once more *)

Lemma or_else_nonempty (s : option string) (d : string) :
  d <> EmptyString -> Js.or_else s d <> EmptyString.
Proof.
  intros Hd. destruct s as [[|c t]|]; simpl; try assumption. discriminate.
Qed.

(** X13: the inscriptions cell always shows between 1 and 24 characters,
    and what it shows is either the fallback label or the beginning of the
    inscription. *)
Theorem inscriptions_cell_bounds (a : Artwork) :
  (1 <= String.length (inscriptionsBodyTemplate a) <= 24)%nat /\
  (inscriptionsBodyTemplate a = "N/A"%string \/
   exists s : string,
     inscriptions a = Some s /\ prefix (inscriptionsBodyTemplate a) s = true).
Proof.
  unfold inscriptionsBodyTemplate.
  assert (Hne : Js.or_else (inscriptions a) "N/A" <> EmptyString)
    by (apply or_else_nonempty; discriminate).
  assert (Hlen : (1 <= String.length (Js.or_else (inscriptions a) "N/A"))%nat).
  { destruct (Js.or_else (inscriptions a) "N/A"); [congruence | simpl; lia]. }
  split.
  - destruct (Z_le_gt_dec
                (Z.of_nat (String.length (Js.or_else (inscriptions a) "N/A"))) 24)
      as [Hle|Hgt].
    + rewrite (truncateText_short _ _ Hle). lia.
    + rewrite truncateText_long, substring0_length by lia.
      change (Z.to_nat 24) with 24%nat. lia.
  - destruct (inscriptions a) as [[|c t]|] eqn:Ei; simpl Js.or_else in *;
      try (left; reflexivity).
    right. exists (String c t). split; [reflexivity|].
    destruct (Z_le_gt_dec (Z.of_nat (String.length (String c t))) 24) as [Hle|Hgt].
    + rewrite (truncateText_short _ _ Hle).
      apply prefix_correct. clear.
      generalize (String c t). intros s.
      induction s as [|x s IH]; simpl; [reflexivity | now rewrite IH].
    + rewrite truncateText_long by lia. apply substring0_prefix.
Qed.

(** ** The row-count box *)

Lemma strip_leading_zeros_app (n : nat) (s : string) :
  strip_leading_zeros (zeros n ++ s) = strip_leading_zeros s.
Proof. induction n as [|n IH]; simpl; auto. Qed.

Lemma strip_leading_zeros_zeros (n : nat) :
  strip_leading_zeros (zeros n) = EmptyString.
Proof. induction n as [|n IH]; simpl; auto. Qed.

(** On a text of digits, the regular expression removes what [nzhead]
    removes from the digits. *)
Lemma strip_leading_zeros_digits (d : uint) :
  strip_leading_zeros (NilEmpty.string_of_uint d) =
  NilEmpty.string_of_uint (nzhead d).
Proof.
  induction d; simpl; auto.
Qed.

Lemma string_of_uint_empty (d : uint) :
  NilEmpty.string_of_uint d = EmptyString -> d = Nil.
Proof. destruct d; simpl; intros H; [reflexivity | discriminate ..]. Qed.

Lemma of_uint_nzhead (d : uint) : Z.of_uint (nzhead d) = Z.of_uint d.
Proof.
  unfold Z.of_uint. f_equal.
  rewrite <- (Unsigned.of_uint_norm d). unfold unorm.
  destruct (nzhead d); reflexivity.
Qed.

(** The digits of a positive number do not start with a zero. *)
Lemma nzhead_to_uint (p : positive) : nzhead (Pos.to_uint p) = Pos.to_uint p.
Proof.
  pose proof (Unsigned.to_of (Pos.to_uint p)) as H.
  rewrite Unsigned.of_to in H. simpl in H.
  pose proof (Unsigned.to_uint_nonzero p) as Hnz.
  unfold unorm in H. destruct (nzhead (Pos.to_uint p)) eqn:E; try (symmetry; exact H).
  congruence.
Qed.

(** X14: leading zeros do not count.  Whatever the text, any number of
    zeros put in front of it leaves what [handleInputChange] stores
    unchanged; and a text made of zeros only stores 0, after which the box
    shows the empty text. *)
Theorem handleInputChange_leading_zeros (n : nat) (s : string) :
  handleInputChange (zeros n ++ s) = handleInputChange s /\
  handleInputChange (zeros n) = Some (setRowCount 0) /\
  (forall (st : State) (w : World),
      rowCountBox (state_after (setRowCount 0 st w)) = EmptyString).
Proof.
  unfold handleInputChange.
  rewrite strip_leading_zeros_app, strip_leading_zeros_zeros.
  repeat split.
Qed.

(** X15: the box stores the number typed.  For a text of decimal digits
    worth at most 2^53, [handleInputChange] sets [rowCount] to the value
    of the digits, leading zeros or not, and 0 for the empty text. *)
Theorem handleInputChange_stores_value (d : uint) (st : State) (w : World) :
  Z.of_uint d <= 9007199254740992 ->
  exists run : Async unit,
    handleInputChange (NilEmpty.string_of_uint d) = Some run /\
    completion (run st w) = Resolved tt /\
    rowCount (state_after (run st w)) = Z.of_uint d /\
    world_after (run st w) = w /\
    selectedArtworks (state_after (run st w)) = selectedArtworks st.
Proof.
  intros Hle. unfold handleInputChange.
  rewrite strip_leading_zeros_digits.
  destruct (String.eqb (NilEmpty.string_of_uint (nzhead d)) EmptyString) eqn:E.
  - apply String.eqb_eq, string_of_uint_empty in E.
    exists (setRowCount 0). rewrite <- of_uint_nzhead, E. repeat split.
  - unfold Number_of_digits. rewrite NilEmpty.usu, of_uint_nzhead.
    apply Z.leb_le in Hle. rewrite Hle.
    exists (setRowCount (Z.of_uint d)). repeat split.
Qed.

Lemma handleInputChange_stores_value_witness :
  Z.of_uint (D0 (D0 (D2 (D5 Nil)))) <= 9007199254740992 /\
  NilEmpty.string_of_uint (D0 (D0 (D2 (D5 Nil)))) = "0025"%string /\
  exists run : Async unit,
    handleInputChange "0025" = Some run /\
    rowCount (state_after (run (asking_for 0) [])) = 25.
Proof.
  split; [vm_compute; discriminate|]. split; [reflexivity|].
  destruct (handleInputChange_stores_value (D0 (D0 (D2 (D5 Nil)))) (asking_for 0) [])
    as (run & Hrun & _ & Hrc & _); [vm_compute; discriminate|].
  exists run. split; [exact Hrun | exact Hrc].
Defined.

(** X16: the box and the state agree.  For [0 <= rowCount <= 2^53],
    feeding [handleInputChange] the very text the box shows stores the
    [rowCount] that was there: the state does not move. *)
Theorem rowCountBox_round_trip (st : State) (w : World) :
  0 <= rowCount st <= 9007199254740992 ->
  exists run : Async unit,
    handleInputChange (rowCountBox st) = Some run /\
    run st w = (Resolved tt, st, w).
Proof.
  intros [H0 Hmax]. unfold rowCountBox.
  destruct st as [a t l f r sel rc]. simpl in *.
  destruct rc as [|p|p]; [| |lia].
  - exists (setRowCount 0). split; reflexivity.
  - simpl Z.eqb. cbv iota. simpl Z.to_int. simpl NilEmpty.string_of_int.
    unfold handleInputChange.
    rewrite strip_leading_zeros_digits, nzhead_to_uint.
    assert (Hv : Z.of_uint (Pos.to_uint p) = Z.pos p).
    { unfold Z.of_uint. rewrite Unsigned.of_to. reflexivity. }
    destruct (String.eqb (NilEmpty.string_of_uint (Pos.to_uint p)) EmptyString) eqn:E.
    + apply String.eqb_eq, string_of_uint_empty in E.
      exfalso. exact (Unsigned.to_uint_nonnil p E).
    + unfold Number_of_digits. rewrite NilEmpty.usu, Hv.
      apply Z.leb_le in Hmax. rewrite Hmax.
      exists (setRowCount (Z.pos p)). split; reflexivity.
Qed.

Lemma rowCountBox_round_trip_witness :
  0 <= rowCount (asking_for 120) <= 9007199254740992 /\
  rowCountBox (asking_for 120) = "120"%string /\
  exists run : Async unit,
    handleInputChange (rowCountBox (asking_for 120)) = Some run /\
    run (asking_for 120) [] = (Resolved tt, asking_for 120, []).
Proof.
  split; [simpl; lia|]. split; [reflexivity|].
  apply (rowCountBox_round_trip (asking_for 120) []). simpl; lia.
Defined.

(** ** The offsets the component holds *)

(** What [handleInputChange] runs is a [setRowCount]. *)
Lemma handleInputChange_sets_rowCount (text : string) (run : Async unit) :
  handleInputChange text = Some run -> exists v : Z, run = setRowCount v.
Proof.
  unfold handleInputChange.
  destruct (String.eqb (strip_leading_zeros text) EmptyString).
  - intros H. injection H as H. eauto.
  - destruct (Number_of_digits (strip_leading_zeros text)) as [v|]; simpl;
      intros H; [injection H as H; eauto | discriminate].
Qed.

(** Every state the component goes through holds the offset of a page: a
    non-negative multiple of a positive page size. *)
Lemma reachable_aligned (st : State) :
  reachable st -> 0 <= first st /\ 0 < rows st /\ (rows st | first st).
Proof.
  induction 1 as [ | srv st w _ IH | srv e st w _ IH He | value st w _ IH
                   | srv st w _ IH | text run st w _ IH Hrun ].
  - simpl. split; [lia|]. split; [lia|]. exists 0. reflexivity.
  - unfold useEffect.
    destruct (fetchData_frame srv (Js.div (first st) (rows st) + 1)%Q (rows st) st w)
      as (Hf & Hr & _). rewrite Hf, Hr. exact IH.
  - destruct (onPageChange_run srv e st w) as (Hf & Hr & _).
    destruct He as (Hp & Hrows & Hfirst).
    rewrite Hf, Hr, Hfirst. split; [nia|]. split; [exact Hrows|].
    exists (ev_page e). reflexivity.
  - exact IH.
  - rewrite handleRowSelection_unfold.
    destruct (completion _); exact IH.
  - destruct (handleInputChange_sets_rowCount text run Hrun) as [v Hv].
    subst run. exact IH.
Qed.
